(** * ConsolePage: the realtime session orchestration of the voice console

    A shallow embedding of [src/pages/ConsolePage.vue]: the reactive refs of
    the page are the fields of [PageState], every call into a collaborator
    (the realtime client, the wav recorder, the wav stream player, the
    network, the browser scheduler) is recorded in a chronological trace,
    and what a collaborator answers is read from a [Collaborators] record
    that sees the trace so far.  The handlers of the page are written in a
    small state-and-exception monad in the order of the source statements;
    an [await] is a sequencing point, and one handler runs to completion
    before the next one starts; a listener of the page is run between
    handlers, not from within a call into a collaborator. *)

From stdpp Require Import gmap strings list fin_maps pretty.
From Stdlib Require Import ZArith Lia Ascii.
From Stdlib Require QArith.QArith_base.

Open Scope Z_scope.

(** ** JavaScript values that cross the page *)

(** A JS [number] that is only passed along (latitude, longitude, a
    temperature) is a rational; sample offsets and merge counters are
    integers. *)
Abbreviation number := QArith_base.Q.

(** The JSON-shaped values of tool arguments and of the weather response. *)
#[warnings="-register-all"]
Inductive Json : Type :=
| JUndefined
| JNull
| JBool (b : bool)
| JNumber (n : number)
| JString (s : string)
| JObject (fields : list (string * Json)).

Fixpoint assoc (k : string) (fields : list (string * Json)) : option Json :=
  match fields with
  | [] => None
  | (k', v) :: rest => if String.eqb k' k then Some v else assoc k rest
  end.

(** What a handler or a collaborator call ends with: a value, or a thrown
    exception (a rejected promise once awaited). *)
Inductive Completion (A : Type) : Type :=
| Returned (a : A)
| Thrown (e : string).
Arguments Returned {A} a.
Arguments Thrown {A} e.

(** [o.k] for a JSON value: reading a property of [undefined] or [null]
    throws a TypeError, a missing key reads as [undefined]. *)
Definition get_prop (o : Json) (k : string) : Completion Json :=
  match o with
  | JUndefined | JNull => Thrown "TypeError"
  | JObject fields => Returned (default JUndefined (assoc k fields))
  | JBool _ | JNumber _ | JString _ => Returned JUndefined
  end.

(** [{...a, ...b}] on objects seen as finite maps: the keys of [b] win.
    Spreading [null] or [undefined] contributes no key. *)
Definition spread (a : option (gmap string Json)) (b : gmap string Json)
  : gmap string Json :=
  b ∪ default ∅ a.

(** ** Data model *)

(** [RealtimeEvent]: one record of the event log.  [event] is the protocol
    message; the page reads its [type] tag and its [event_id].  Every
    message the client reports carries a string [type]: the client
    dispatches on it. *)
Inductive Source : Type := SourceClient | SourceServer.

Record Payload : Type := { event_id : string; type : string }.

Record RealtimeEvent : Type := {
  time : string;
  source : Source;
  count : option Z;
  event : Payload
}.

(** The decoded audio of an item, as returned by [WavRecorder.decode]. *)
Record WavFile : Type := { url : string }.

Record Formatted : Type := {
  audio : option (list Z);
  text : option string;
  transcript : option string;
  file : option WavFile
}.

(** [ItemType]: a conversation item, an object owned by the client's
    conversation and shared by reference with the page. *)
Record ItemType : Type := {
  id : string;
  role : option string;
  status : string;
  formatted : Formatted
}.

(** Items are heap objects; the page and the client hold references. *)
Definition loc := nat.

(** What [wavStreamPlayer.interrupt()] resolves to when it is not [null]. *)
Record TrackSampleOffset : Type := {
  trackId : option string;
  offset : Z
}.

(** A canvas of the visualization, with whether a 2d context is available. *)
Record Canvas : Type := {
  width : Z;
  height : Z;
  offsetWidth : Z;
  offsetHeight : Z;
  has2d : bool
}.

(** ** Calls into the collaborators *)

Inductive Side : Type := ClientSide | ServerSide.

(** The three session updates the page sends. *)
Inductive SessionPatch : Type :=
| Instructions
| InputAudioTranscription
| TurnDetection (kind : option string).

Inductive Call : Type :=
| WavRecorder_begin
| WavRecorder_record
| WavRecorder_pause
| WavRecorder_end
| WavRecorder_getStatus
| WavRecorder_getFrequencies
| WavRecorder_decode (samples : list Z) (sampleRate fromSampleRate : Z)
| WavStreamPlayer_connect
| WavStreamPlayer_interrupt
| WavStreamPlayer_getFrequencies
| WavStreamPlayer_add16BitPCM (samples : list Z) (track : string)
| Client_connect
| Client_disconnect
| Client_isConnected
| Client_getTurnDetectionType
| Client_getItems
| Client_updateSession (patch : SessionPatch)
| Client_addTool (name : string)
| Client_sendUserMessageContent (text : string)
| Client_createResponse
| Client_cancelResponse (track : string) (sampleOffset : Z)
| Client_deleteItem (item : string)
| Fetch_forecast (lat lng : Json)
| Response_json
| NextTick
| ClearRect (side : Side)
| DrawBars (side : Side)
| RequestAnimationFrame
| Console_error.

(** What a collaborator call answers. *)
Inductive Outcome (A : Type) : Type :=
| Resolved (a : A)
| Rejected (e : string).
Arguments Resolved {A} a.
Arguments Rejected {A} e.

(** The collaborators are outside the page: each answer is a function of
    the calls made so far, and is otherwise unconstrained. *)
Record Collaborators : Type := {
  recorder_begin : list Call -> Outcome unit;
  recorder_record : list Call -> Outcome unit;
  recorder_pause : list Call -> Outcome unit;
  recorder_end : list Call -> Outcome unit;
  recorder_getStatus : list Call -> Outcome string;
  recorder_recording : list Call -> bool;
  recorder_getFrequencies : list Call -> Outcome unit;
  recorder_decode : list Call -> list Z -> Outcome WavFile;
  player_connect : list Call -> Outcome unit;
  player_interrupt : list Call -> Outcome (option TrackSampleOffset);
  player_analyser : list Call -> bool;
  player_getFrequencies : list Call -> Outcome unit;
  player_add16BitPCM : list Call -> Outcome unit;
  client_connect : list Call -> Outcome unit;
  client_disconnect : list Call -> Outcome unit;
  client_isConnected : list Call -> Outcome bool;
  client_getTurnDetectionType : list Call -> Outcome (option string);
  client_updateSession : list Call -> Outcome unit;
  client_sendUserMessageContent : list Call -> Outcome unit;
  client_createResponse : list Call -> Outcome unit;
  client_cancelResponse : list Call -> Outcome unit;
  client_deleteItem : list Call -> Outcome unit;
  fetch : list Call -> Outcome unit;
  response_json : list Call -> Outcome Json
}.

(** ** The page state *)

Record PageState : Type := {
  startTimeRef : string;
  items : list loc;
  realtimeEvents : list RealtimeEvent;
  isConnected : bool;
  canPushToTalk : bool;
  isRecording : bool;
  memoryKv_value : option (gmap string string);
  coords : option (gmap string Json);
  marker : option (gmap string Json);
  isLoaded_value : bool;
  clientCanvasRef : option Canvas;
  serverCanvasRef : option Canvas
}.

(** The world a handler runs in: the page, the heap of item objects, the
    client's own item array ([client.conversation]), the clock, and the
    trace of collaborator calls. *)
Record World : Type := {
  page : PageState;
  heap : gmap loc ItemType;
  conversation : list loc;
  now : string;
  calls : list Call
}.

Definition with_page (f : PageState -> PageState) (w : World) : World :=
  {| page := f (page w); heap := heap w; conversation := conversation w;
     now := now w; calls := calls w |}.

Definition with_heap (f : gmap loc ItemType -> gmap loc ItemType) (w : World)
  : World :=
  {| page := page w; heap := f (heap w); conversation := conversation w;
     now := now w; calls := calls w |}.

Definition with_call (c : Call) (w : World) : World :=
  {| page := page w; heap := heap w; conversation := conversation w;
     now := now w; calls := calls w ++ [c] |}.

(** Assignments to the refs. *)
Definition set_startTimeRef (v : string) (p : PageState) : PageState :=
  {| startTimeRef := v; items := items p; realtimeEvents := realtimeEvents p;
     isConnected := isConnected p; canPushToTalk := canPushToTalk p;
     isRecording := isRecording p; memoryKv_value := memoryKv_value p;
     coords := coords p; marker := marker p;
     isLoaded_value := isLoaded_value p;
     clientCanvasRef := clientCanvasRef p;
     serverCanvasRef := serverCanvasRef p |}.

Definition set_items (v : list loc) (p : PageState) : PageState :=
  {| startTimeRef := startTimeRef p; items := v;
     realtimeEvents := realtimeEvents p;
     isConnected := isConnected p; canPushToTalk := canPushToTalk p;
     isRecording := isRecording p; memoryKv_value := memoryKv_value p;
     coords := coords p; marker := marker p;
     isLoaded_value := isLoaded_value p;
     clientCanvasRef := clientCanvasRef p;
     serverCanvasRef := serverCanvasRef p |}.

Definition set_realtimeEvents (v : list RealtimeEvent) (p : PageState)
  : PageState :=
  {| startTimeRef := startTimeRef p; items := items p; realtimeEvents := v;
     isConnected := isConnected p; canPushToTalk := canPushToTalk p;
     isRecording := isRecording p; memoryKv_value := memoryKv_value p;
     coords := coords p; marker := marker p;
     isLoaded_value := isLoaded_value p;
     clientCanvasRef := clientCanvasRef p;
     serverCanvasRef := serverCanvasRef p |}.

Definition set_isConnected (v : bool) (p : PageState) : PageState :=
  {| startTimeRef := startTimeRef p; items := items p;
     realtimeEvents := realtimeEvents p;
     isConnected := v; canPushToTalk := canPushToTalk p;
     isRecording := isRecording p; memoryKv_value := memoryKv_value p;
     coords := coords p; marker := marker p;
     isLoaded_value := isLoaded_value p;
     clientCanvasRef := clientCanvasRef p;
     serverCanvasRef := serverCanvasRef p |}.

Definition set_canPushToTalk (v : bool) (p : PageState) : PageState :=
  {| startTimeRef := startTimeRef p; items := items p;
     realtimeEvents := realtimeEvents p;
     isConnected := isConnected p; canPushToTalk := v;
     isRecording := isRecording p; memoryKv_value := memoryKv_value p;
     coords := coords p; marker := marker p;
     isLoaded_value := isLoaded_value p;
     clientCanvasRef := clientCanvasRef p;
     serverCanvasRef := serverCanvasRef p |}.

Definition set_isRecording (v : bool) (p : PageState) : PageState :=
  {| startTimeRef := startTimeRef p; items := items p;
     realtimeEvents := realtimeEvents p;
     isConnected := isConnected p; canPushToTalk := canPushToTalk p;
     isRecording := v; memoryKv_value := memoryKv_value p;
     coords := coords p; marker := marker p;
     isLoaded_value := isLoaded_value p;
     clientCanvasRef := clientCanvasRef p;
     serverCanvasRef := serverCanvasRef p |}.

Definition set_memoryKv_value (v : option (gmap string string))
  (p : PageState) : PageState :=
  {| startTimeRef := startTimeRef p; items := items p;
     realtimeEvents := realtimeEvents p;
     isConnected := isConnected p; canPushToTalk := canPushToTalk p;
     isRecording := isRecording p; memoryKv_value := v;
     coords := coords p; marker := marker p;
     isLoaded_value := isLoaded_value p;
     clientCanvasRef := clientCanvasRef p;
     serverCanvasRef := serverCanvasRef p |}.

Definition set_coords (v : option (gmap string Json)) (p : PageState)
  : PageState :=
  {| startTimeRef := startTimeRef p; items := items p;
     realtimeEvents := realtimeEvents p;
     isConnected := isConnected p; canPushToTalk := canPushToTalk p;
     isRecording := isRecording p; memoryKv_value := memoryKv_value p;
     coords := v; marker := marker p;
     isLoaded_value := isLoaded_value p;
     clientCanvasRef := clientCanvasRef p;
     serverCanvasRef := serverCanvasRef p |}.

Definition set_marker (v : option (gmap string Json)) (p : PageState)
  : PageState :=
  {| startTimeRef := startTimeRef p; items := items p;
     realtimeEvents := realtimeEvents p;
     isConnected := isConnected p; canPushToTalk := canPushToTalk p;
     isRecording := isRecording p; memoryKv_value := memoryKv_value p;
     coords := coords p; marker := v;
     isLoaded_value := isLoaded_value p;
     clientCanvasRef := clientCanvasRef p;
     serverCanvasRef := serverCanvasRef p |}.

Definition set_isLoaded_value (v : bool) (p : PageState) : PageState :=
  {| startTimeRef := startTimeRef p; items := items p;
     realtimeEvents := realtimeEvents p;
     isConnected := isConnected p; canPushToTalk := canPushToTalk p;
     isRecording := isRecording p; memoryKv_value := memoryKv_value p;
     coords := coords p; marker := marker p;
     isLoaded_value := v;
     clientCanvasRef := clientCanvasRef p;
     serverCanvasRef := serverCanvasRef p |}.

Definition set_clientCanvasRef (v : option Canvas) (p : PageState)
  : PageState :=
  {| startTimeRef := startTimeRef p; items := items p;
     realtimeEvents := realtimeEvents p;
     isConnected := isConnected p; canPushToTalk := canPushToTalk p;
     isRecording := isRecording p; memoryKv_value := memoryKv_value p;
     coords := coords p; marker := marker p;
     isLoaded_value := isLoaded_value p;
     clientCanvasRef := v;
     serverCanvasRef := serverCanvasRef p |}.

Definition set_serverCanvasRef (v : option Canvas) (p : PageState)
  : PageState :=
  {| startTimeRef := startTimeRef p; items := items p;
     realtimeEvents := realtimeEvents p;
     isConnected := isConnected p; canPushToTalk := canPushToTalk p;
     isRecording := isRecording p; memoryKv_value := memoryKv_value p;
     coords := coords p; marker := marker p;
     isLoaded_value := isLoaded_value p;
     clientCanvasRef := clientCanvasRef p;
     serverCanvasRef := v |}.

(** ** The handler monad *)

Definition M (A : Type) : Type := World -> Completion A * World.

Definition ret {A} (a : A) : M A := fun w => (Returned a, w).

Definition bind {A B} (m : M A) (k : A -> M B) : M B :=
  fun w =>
    match m w with
    | (Returned a, w') => k a w'
    | (Thrown e, w') => (Thrown e, w')
    end.

Declare Scope handler_scope.
Delimit Scope handler_scope with handler.
Notation "x <- m ;; k" := (bind m (fun x => k))
  (at level 100, m at next level, right associativity) : handler_scope.
Notation "m ;; k" := (bind m (fun _ => k))
  (at level 100, right associativity) : handler_scope.
Open Scope handler_scope.

Definition assign (f : PageState -> PageState) : M unit :=
  fun w => (Returned tt, with_page f w).

Definition read {A} (f : PageState -> A) : M A :=
  fun w => (Returned (f (page w)), w).

Definition throw {A} (e : string) : M A := fun w => (Thrown e, w).

(** One call: it is recorded, then its answer is read from the calls that
    came before it. *)
Definition call {A} (c : Call) (answer : list Call -> Outcome A) : M A :=
  fun w =>
    match answer (calls w) with
    | Resolved a => (Returned a, with_call c w)
    | Rejected e => (Thrown e, with_call c w)
    end.

(** A property read on a collaborator object: no call, no failure. *)
Definition peek {A} (answer : list Call -> A) : M A :=
  fun w => (Returned (answer (calls w)), w).

Definition when (b : bool) (m : M unit) : M unit :=
  if b then m else ret tt.

(** Browser and framework calls that answer without failing. *)
Definition always (h : list Call) : Outcome unit := Resolved tt.

(** [new Date().toISOString()]. *)
Definition clock : M string := fun w => (Returned (now w), w).

(** [client.conversation.getItems()]: a copy of the client's item array;
    the items themselves are shared. *)
Definition getItems : M (list loc) :=
  fun w => (Returned (conversation w), with_call Client_getItems w).

(** Reading through a reference to an item; [undefined.x] throws. *)
Definition deref (l : loc) : M ItemType :=
  fun w =>
    match heap w !! l with
    | Some it => (Returned it, w)
    | None => (Thrown "TypeError", w)
    end.

Definition lift {A} (c : Completion A) : M A := fun w => (c, w).

(** ** JavaScript truthiness, as the page uses it *)

(** A Vue ref is an object with a [value] property. *)
Record Ref (A : Type) : Type := { value : A }.
Arguments value {A} r.

(** An object is truthy, whatever it holds. *)
Definition truthy_object {A} (r : Ref A) : bool := true.

(** A string-or-missing value is truthy when present and not empty. *)
Definition truthy_string (s : option string) : bool :=
  match s with
  | Some s => negb (String.eqb s "")
  | None => false
  end.

(** [x || 0] on a number-or-missing value. *)
Definition or_zero (c : option Z) : Z :=
  match c with
  | Some n => if n =? 0 then 0 else n
  | None => 0
  end.

(** [a?.length] as a condition. *)
Definition truthy_length (a : option (list Z)) : bool :=
  match a with
  | Some l => negb (Nat.eqb (length l) 0)
  | None => false
  end.

(** ** The event log: the update function of the 'realtime.event' handler *)

Definition set_count (c : option Z) (e : RealtimeEvent) : RealtimeEvent :=
  {| time := time e; source := source e; count := c; event := event e |}.

Definition realtime_event_update (realtimeEvent : RealtimeEvent)
  (current : list RealtimeEvent) : list RealtimeEvent :=
  match last current with
  | Some lastEvent =>
      if String.eqb (type (event lastEvent)) (type (event realtimeEvent))
      then
        let lastEvent' :=
          set_count (Some (or_zero (count lastEvent) + 1)) lastEvent in
        removelast current ++ [lastEvent']
      else current ++ [realtimeEvent]
  | None => current ++ [realtimeEvent]
  end.

(** ** The conversation update: item mutation through the shared reference *)

Record Delta : Type := { delta_audio : option (list Z) }.

Definition set_file (f : option WavFile) (it : ItemType) : ItemType :=
  {| id := id it; role := role it; status := status it;
     formatted := {| audio := audio (formatted it);
                     text := text (formatted it);
                     transcript := transcript (formatted it);
                     file := f |} |}.

(** [item.formatted.file = wavFile]. *)
Definition assign_file (l : loc) (f : WavFile) : M unit :=
  fun w =>
    match heap w !! l with
    | Some it => (Returned tt, with_heap (insert l (set_file (Some f) it)) w)
    | None => (Thrown "TypeError", w)
    end.

(** ** The handlers of the page *)

Section Handlers.

Variable env : Collaborators.

(** *** Helper methods *)

Definition setMemoryKv
  (updateFn : option (gmap string string) -> gmap string string) : M unit :=
  assign (fun p => set_memoryKv_value (Some (updateFn (memoryKv_value p))) p).

Definition setMarker (newMarker : gmap string Json) : M unit :=
  assign (fun p => set_marker (Some (spread (marker p) newMarker)) p).

Definition setCoords (newCoords : gmap string Json) : M unit :=
  assign (fun p => set_coords (Some (spread (coords p) newCoords)) p).

Definition setItems (newItems : list loc) : M unit :=
  assign (set_items newItems).

Definition setRealtimeEvents
  (updateFn : list RealtimeEvent -> list RealtimeEvent) : M unit :=
  assign (fun p => set_realtimeEvents (updateFn (realtimeEvents p)) p).

(** *** Switching between manual and VAD mode *)

Definition changeTurnEndType (value : string) : M unit :=
  recording <-
    (if String.eqb value "none"
     then s <- call WavRecorder_getStatus (recorder_getStatus env) ;;
          ret (String.eqb s "recording")
     else ret false) ;;
  when recording (call WavRecorder_pause (recorder_pause env)) ;;
  call (Client_updateSession
          (TurnDetection
             (if String.eqb value "none" then None else Some "server_vad")))
       (client_updateSession env) ;;
  connected <-
    (if String.eqb value "server_vad"
     then call Client_isConnected (client_isConnected env)
     else ret false) ;;
  when connected (call WavRecorder_record (recorder_record env)) ;;
  assign (set_canPushToTalk (String.eqb value "none")).

(** *** The render loop of the visualization *)

Definition resize (c : Canvas) : Canvas :=
  if (width c =? 0) || (height c =? 0)
  then {| width := offsetWidth c; height := offsetHeight c;
          offsetWidth := offsetWidth c; offsetHeight := offsetHeight c;
          has2d := has2d c |}
  else c.

Definition render : M unit :=
  isLoaded <- read (fun p => {| value := isLoaded_value p |}) ;;
  if truthy_object isLoaded then
    call NextTick always ;;
    clientCanvas <- read clientCanvasRef ;;
    match clientCanvas with
    | Some c =>
        assign (set_clientCanvasRef (Some (resize c))) ;;
        when (has2d c)
          (call (ClearRect ClientSide) always ;;
           recording <- peek (recorder_recording env) ;;
           when recording
             (call WavRecorder_getFrequencies (recorder_getFrequencies env)) ;;
           call (DrawBars ClientSide) always)
    | None => ret tt
    end ;;
    serverCanvas <- read serverCanvasRef ;;
    match serverCanvas with
    | Some c =>
        assign (set_serverCanvasRef (Some (resize c))) ;;
        when (has2d c)
          (call (ClearRect ServerSide) always ;;
           analyser <- peek (player_analyser env) ;;
           when analyser
             (call WavStreamPlayer_getFrequencies
                   (player_getFrequencies env)) ;;
           call (DrawBars ServerSide) always)
    | None => ret tt
    end ;;
    call RequestAnimationFrame always
  else ret tt.

(** *** The tools *)

Definition set_memory (key value : string) : M Json :=
  setMemoryKv (fun current => <[key := value]> (default ∅ current)) ;;
  ret (JObject [("ok", JBool true)]).

Definition get_weather (lat lng location : Json) : M Json :=
  setMarker (<["lat" := lat]> (<["lng" := lng]> {["location" := location]})) ;;
  setCoords (<["lat" := lat]> (<["lng" := lng]> {["location" := location]})) ;;
  call (Fetch_forecast lat lng) (fetch env) ;;
  json <- call Response_json (response_json env) ;;
  current <- lift (get_prop json "current") ;;
  temperature_value <- lift (get_prop current "temperature_2m") ;;
  current_units <- lift (get_prop json "current_units") ;;
  temperature_units <- lift (get_prop current_units "temperature_2m") ;;
  let temperature :=
    JObject [("value", temperature_value); ("units", temperature_units)] in
  current <- lift (get_prop json "current") ;;
  wind_value <- lift (get_prop current "wind_speed_10m") ;;
  current_units <- lift (get_prop json "current_units") ;;
  wind_units <- lift (get_prop current_units "wind_speed_10m") ;;
  let wind_speed := JObject [("value", wind_value); ("units", wind_units)] in
  setMarker (<["lat" := lat]> (<["lng" := lng]> (<["location" := location]>
             (<["temperature" := temperature]>
                {["wind_speed" := wind_speed]})))) ;;
  ret json.

(** *** The listeners on the client *)

Definition on_realtime_event (realtimeEvent : RealtimeEvent) : M unit :=
  setRealtimeEvents (realtime_event_update realtimeEvent).

Definition on_error : M unit := call Console_error always.

Definition on_conversation_interrupted : M unit :=
  trackSampleOffset <- call WavStreamPlayer_interrupt (player_interrupt env) ;;
  if truthy_string (trackSampleOffset ≫= trackId) then
    match trackSampleOffset with
    | Some {| trackId := Some trackId; offset := offset |} =>
        call (Client_cancelResponse trackId offset) (client_cancelResponse env)
    | _ => ret tt
    end
  else ret tt.

Definition on_conversation_updated (item : loc) (delta : option Delta)
  : M unit :=
  updatedItems <- getItems ;;
  match delta ≫= delta_audio with
  | Some samples =>
      it <- deref item ;;
      call (WavStreamPlayer_add16BitPCM samples (id it))
           (player_add16BitPCM env)
  | None => ret tt
  end ;;
  it <- deref item ;;
  (if String.eqb (status it) "completed"
      && truthy_length (audio (formatted it))
   then
     let samples := default [] (audio (formatted it)) in
     wavFile <- call (WavRecorder_decode samples 24000 24000)
                     (fun h => recorder_decode env h samples) ;;
     assign_file item wavFile
   else ret tt) ;;
  setItems updatedItems.

(** *** Mounting and unmounting *)

Definition onMounted : M unit :=
  call (Client_updateSession Instructions) (client_updateSession env) ;;
  call (Client_updateSession InputAudioTranscription)
       (client_updateSession env) ;;
  call (Client_addTool "set_memory") always ;;
  call (Client_addTool "get_weather") always ;;
  its <- getItems ;;
  setItems its ;;
  assign (set_isLoaded_value true) ;;
  render.

Definition onUnmounted : M unit :=
  assign (set_isLoaded_value false).

(** *** Connecting and disconnecting *)

Definition connectConversation : M unit :=
  t <- clock ;;
  assign (set_startTimeRef t) ;;
  assign (set_isConnected true) ;;
  assign (set_realtimeEvents []) ;;
  its <- getItems ;;
  assign (set_items its) ;;
  call WavRecorder_begin (recorder_begin env) ;;
  call WavStreamPlayer_connect (player_connect env) ;;
  call Client_connect (client_connect env) ;;
  call (Client_sendUserMessageContent "Hello!")
       (client_sendUserMessageContent env) ;;
  kind <- call Client_getTurnDetectionType (client_getTurnDetectionType env) ;;
  when (bool_decide (kind = Some "server_vad"))
    (call WavRecorder_record (recorder_record env)).

Definition default_coords : gmap string Json :=
  <["lat" := JNumber (QArith_base.Qmake 37775593 1000000)]>
    {["lng" := JNumber (QArith_base.Qmake (-122418137) 1000000)]}.

(** The three refs to the collaborators always hold their object, so the
    [if (client)], [if (wavRecorder)] and [if (wavStreamPlayer)] tests
    pass. *)
Definition disconnectConversation : M unit :=
  assign (set_isConnected false) ;;
  assign (set_realtimeEvents []) ;;
  assign (set_items []) ;;
  assign (set_memoryKv_value (Some ∅)) ;;
  assign (set_coords (Some default_coords)) ;;
  assign (set_marker None) ;;
  call Client_disconnect (client_disconnect env) ;;
  call WavRecorder_end (recorder_end env) ;;
  _ <- call WavStreamPlayer_interrupt (player_interrupt env) ;;
  ret tt.

(** *** Push to talk *)

Definition startRecording : M unit :=
  assign (set_isRecording true) ;;
  trackSampleOffset <- call WavStreamPlayer_interrupt (player_interrupt env) ;;
  (if truthy_string (trackSampleOffset ≫= trackId) then
     match trackSampleOffset with
     | Some {| trackId := Some trackId; offset := offset |} =>
         call (Client_cancelResponse trackId offset)
              (client_cancelResponse env)
     | _ => ret tt
     end
   else ret tt) ;;
  call WavRecorder_record (recorder_record env).

Definition stopRecording : M unit :=
  assign (set_isRecording false) ;;
  call WavRecorder_pause (recorder_pause env) ;;
  call Client_createResponse (client_createResponse env).

Definition deleteConversationItem (item : string) : M unit :=
  call (Client_deleteItem item) (client_deleteItem env).

(** *** The controls of the template *)

Inductive UserAction : Type :=
| ClickConnectButton
| MouseDownPushToTalk
| MouseUpPushToTalk
| ToggleChange (value : string)
| ClickDeleteItem (item : string).

(** The push-to-talk button sits under [v-if="isConnected && canPushToTalk"]:
    it exists, and receives mouse events, only while both flags are set. *)
Definition pushToTalkRendered (p : PageState) : bool :=
  isConnected p && canPushToTalk p.

Definition dispatch (a : UserAction) : M unit :=
  match a with
  | ClickConnectButton =>
      connected <- read isConnected ;;
      if connected then disconnectConversation else connectConversation
  | MouseDownPushToTalk =>
      rendered <- read pushToTalkRendered ;;
      if rendered then startRecording else ret tt
  | MouseUpPushToTalk =>
      rendered <- read pushToTalkRendered ;;
      if rendered then stopRecording else ret tt
  | ToggleChange value => changeTurnEndType value
  | ClickDeleteItem item => deleteConversationItem item
  end.

End Handlers.

(** A run of the client emitting [realtime.event] for each event in turn. *)
Fixpoint deliver_events (es : list RealtimeEvent) : M unit :=
  match es with
  | [] => ret tt
  | e :: rest => on_realtime_event e ;; deliver_events rest
  end.

(** The log after a list of appends, as a fold of the update function. *)
Definition appended (es : list RealtimeEvent) (current : list RealtimeEvent)
  : list RealtimeEvent :=
  fold_left (fun cur e => realtime_event_update e cur) es current.

(** ** Concrete pages and collaborators *)

(** The page as its refs are initialised at setup. *)
Definition initial_page : PageState :=
  {| startTimeRef := "2024-01-01T00:00:00.000Z";
     items := [];
     realtimeEvents := [];
     isConnected := false;
     canPushToTalk := true;
     isRecording := false;
     memoryKv_value := None;
     coords := Some default_coords;
     marker := None;
     isLoaded_value := false;
     clientCanvasRef := None;
     serverCanvasRef := None |}.

Definition initial_world : World :=
  {| page := initial_page; heap := ∅; conversation := [];
     now := "2024-01-01T00:00:00.000Z"; calls := [] |}.

(** Collaborators whose every call succeeds; the player is idle. *)
Definition all_resolve : Collaborators :=
  {| recorder_begin := fun _ => Resolved tt;
     recorder_record := fun _ => Resolved tt;
     recorder_pause := fun _ => Resolved tt;
     recorder_end := fun _ => Resolved tt;
     recorder_getStatus := fun _ => Resolved "paused";
     recorder_recording := fun _ => false;
     recorder_getFrequencies := fun _ => Resolved tt;
     recorder_decode := fun _ _ => Resolved {| url := "blob:wav" |};
     player_connect := fun _ => Resolved tt;
     player_interrupt := fun _ => Resolved None;
     player_analyser := fun _ => false;
     player_getFrequencies := fun _ => Resolved tt;
     player_add16BitPCM := fun _ => Resolved tt;
     client_connect := fun _ => Resolved tt;
     client_disconnect := fun _ => Resolved tt;
     client_isConnected := fun _ => Resolved true;
     client_getTurnDetectionType := fun _ => Resolved None;
     client_updateSession := fun _ => Resolved tt;
     client_sendUserMessageContent := fun _ => Resolved tt;
     client_createResponse := fun _ => Resolved tt;
     client_cancelResponse := fun _ => Resolved tt;
     client_deleteItem := fun _ => Resolved tt;
     fetch := fun _ => Resolved tt;
     response_json := fun _ => Resolved (JObject []) |}.

(** Collaborators that differ from given ones in one answer. *)
Definition with_recorder_end (answer : list Call -> Outcome unit)
  (env : Collaborators) : Collaborators :=
  {| recorder_begin := recorder_begin env;
     recorder_record := recorder_record env;
     recorder_pause := recorder_pause env;
     recorder_end := answer;
     recorder_getStatus := recorder_getStatus env;
     recorder_recording := recorder_recording env;
     recorder_getFrequencies := recorder_getFrequencies env;
     recorder_decode := recorder_decode env;
     player_connect := player_connect env;
     player_interrupt := player_interrupt env;
     player_analyser := player_analyser env;
     player_getFrequencies := player_getFrequencies env;
     player_add16BitPCM := player_add16BitPCM env;
     client_connect := client_connect env;
     client_disconnect := client_disconnect env;
     client_isConnected := client_isConnected env;
     client_getTurnDetectionType := client_getTurnDetectionType env;
     client_updateSession := client_updateSession env;
     client_sendUserMessageContent := client_sendUserMessageContent env;
     client_createResponse := client_createResponse env;
     client_cancelResponse := client_cancelResponse env;
     client_deleteItem := client_deleteItem env;
     fetch := fetch env;
     response_json := response_json env |}.

Definition with_recorder_decode (answer : list Call -> list Z -> Outcome WavFile)
  (env : Collaborators) : Collaborators :=
  {| recorder_begin := recorder_begin env;
     recorder_record := recorder_record env;
     recorder_pause := recorder_pause env;
     recorder_end := recorder_end env;
     recorder_getStatus := recorder_getStatus env;
     recorder_recording := recorder_recording env;
     recorder_getFrequencies := recorder_getFrequencies env;
     recorder_decode := answer;
     player_connect := player_connect env;
     player_interrupt := player_interrupt env;
     player_analyser := player_analyser env;
     player_getFrequencies := player_getFrequencies env;
     player_add16BitPCM := player_add16BitPCM env;
     client_connect := client_connect env;
     client_disconnect := client_disconnect env;
     client_isConnected := client_isConnected env;
     client_getTurnDetectionType := client_getTurnDetectionType env;
     client_updateSession := client_updateSession env;
     client_sendUserMessageContent := client_sendUserMessageContent env;
     client_createResponse := client_createResponse env;
     client_cancelResponse := client_cancelResponse env;
     client_deleteItem := client_deleteItem env;
     fetch := fetch env;
     response_json := response_json env |}.

Definition with_player_interrupt (answer : list Call -> Outcome (option TrackSampleOffset))
  (env : Collaborators) : Collaborators :=
  {| recorder_begin := recorder_begin env;
     recorder_record := recorder_record env;
     recorder_pause := recorder_pause env;
     recorder_end := recorder_end env;
     recorder_getStatus := recorder_getStatus env;
     recorder_recording := recorder_recording env;
     recorder_getFrequencies := recorder_getFrequencies env;
     recorder_decode := recorder_decode env;
     player_connect := player_connect env;
     player_interrupt := answer;
     player_analyser := player_analyser env;
     player_getFrequencies := player_getFrequencies env;
     player_add16BitPCM := player_add16BitPCM env;
     client_connect := client_connect env;
     client_disconnect := client_disconnect env;
     client_isConnected := client_isConnected env;
     client_getTurnDetectionType := client_getTurnDetectionType env;
     client_updateSession := client_updateSession env;
     client_sendUserMessageContent := client_sendUserMessageContent env;
     client_createResponse := client_createResponse env;
     client_cancelResponse := client_cancelResponse env;
     client_deleteItem := client_deleteItem env;
     fetch := fetch env;
     response_json := response_json env |}.

Definition with_client_connect (answer : list Call -> Outcome unit)
  (env : Collaborators) : Collaborators :=
  {| recorder_begin := recorder_begin env;
     recorder_record := recorder_record env;
     recorder_pause := recorder_pause env;
     recorder_end := recorder_end env;
     recorder_getStatus := recorder_getStatus env;
     recorder_recording := recorder_recording env;
     recorder_getFrequencies := recorder_getFrequencies env;
     recorder_decode := recorder_decode env;
     player_connect := player_connect env;
     player_interrupt := player_interrupt env;
     player_analyser := player_analyser env;
     player_getFrequencies := player_getFrequencies env;
     player_add16BitPCM := player_add16BitPCM env;
     client_connect := answer;
     client_disconnect := client_disconnect env;
     client_isConnected := client_isConnected env;
     client_getTurnDetectionType := client_getTurnDetectionType env;
     client_updateSession := client_updateSession env;
     client_sendUserMessageContent := client_sendUserMessageContent env;
     client_createResponse := client_createResponse env;
     client_cancelResponse := client_cancelResponse env;
     client_deleteItem := client_deleteItem env;
     fetch := fetch env;
     response_json := response_json env |}.

Definition with_fetch (answer : list Call -> Outcome unit)
  (env : Collaborators) : Collaborators :=
  {| recorder_begin := recorder_begin env;
     recorder_record := recorder_record env;
     recorder_pause := recorder_pause env;
     recorder_end := recorder_end env;
     recorder_getStatus := recorder_getStatus env;
     recorder_recording := recorder_recording env;
     recorder_getFrequencies := recorder_getFrequencies env;
     recorder_decode := recorder_decode env;
     player_connect := player_connect env;
     player_interrupt := player_interrupt env;
     player_analyser := player_analyser env;
     player_getFrequencies := player_getFrequencies env;
     player_add16BitPCM := player_add16BitPCM env;
     client_connect := client_connect env;
     client_disconnect := client_disconnect env;
     client_isConnected := client_isConnected env;
     client_getTurnDetectionType := client_getTurnDetectionType env;
     client_updateSession := client_updateSession env;
     client_sendUserMessageContent := client_sendUserMessageContent env;
     client_createResponse := client_createResponse env;
     client_cancelResponse := client_cancelResponse env;
     client_deleteItem := client_deleteItem env;
     fetch := answer;
     response_json := response_json env |}.

Definition with_response_json (answer : list Call -> Outcome Json)
  (env : Collaborators) : Collaborators :=
  {| recorder_begin := recorder_begin env;
     recorder_record := recorder_record env;
     recorder_pause := recorder_pause env;
     recorder_end := recorder_end env;
     recorder_getStatus := recorder_getStatus env;
     recorder_recording := recorder_recording env;
     recorder_getFrequencies := recorder_getFrequencies env;
     recorder_decode := recorder_decode env;
     player_connect := player_connect env;
     player_interrupt := player_interrupt env;
     player_analyser := player_analyser env;
     player_getFrequencies := player_getFrequencies env;
     player_add16BitPCM := player_add16BitPCM env;
     client_connect := client_connect env;
     client_disconnect := client_disconnect env;
     client_isConnected := client_isConnected env;
     client_getTurnDetectionType := client_getTurnDetectionType env;
     client_updateSession := client_updateSession env;
     client_sendUserMessageContent := client_sendUserMessageContent env;
     client_createResponse := client_createResponse env;
     client_cancelResponse := client_cancelResponse env;
     client_deleteItem := client_deleteItem env;
     fetch := fetch env;
     response_json := answer |}.

(** A protocol event as the client emits it: no [count]. *)
Definition emitted (s : Source) (ty : string) : RealtimeEvent :=
  {| time := "2024-01-01T00:00:01.000Z"; source := s; count := None;
     event := {| event_id := "evt_1"; type := ty |} |}.

Definition with_log (l : list RealtimeEvent) (w : World) : World :=
  with_page (set_realtimeEvents l) w.

(** ** Reading a trace *)

(** The cancellation requests of a trace, in order. *)
Definition cancellations (trace : list Call) : list (string * Z) :=
  omap (fun c => match c with
                 | Client_cancelResponse t o => Some (t, o)
                 | _ => None
                 end) trace.

(** How often a trace decodes audio. *)
Definition is_decode (c : Call) : bool :=
  match c with
  | WavRecorder_decode _ _ _ => true
  | _ => false
  end.

Definition decodes (trace : list Call) : nat :=
  length (List.filter is_decode trace).
Arguments decodes : simpl never.

(** ** Scenarios *)

(** A playback collaborator that reports the given answer to [interrupt]. *)
Definition interrupt_reports (r : option TrackSampleOffset) : Collaborators :=
  with_player_interrupt (fun _ => Resolved r) all_resolve.

(** The fields [get_weather] writes before it asks for the forecast. *)
Definition weather_patch (lat lng location : Json) : gmap string Json :=
  <["lat" := lat]> (<["lng" := lng]> {["location" := location]}).

Definition is_fetch (c : Call) : bool :=
  match c with
  | Fetch_forecast _ _ => true
  | _ => false
  end.

Definition forecast_body : Json :=
  JObject
    [("current",
      JObject [("temperature_2m", JNumber (QArith_base.Qmake 15 1));
               ("wind_speed_10m", JNumber (QArith_base.Qmake 7 1))]);
     ("current_units",
      JObject [("temperature_2m", JString "C");
               ("wind_speed_10m", JString "km/h")])].

(** The network is down after the first request. *)
Definition network_fails_after_first : Collaborators :=
  with_fetch (fun h => if existsb is_fetch h
                       then Rejected "Failed to fetch" else Resolved tt)
    (with_response_json (fun _ => Resolved forecast_body) all_resolve).

Definition network_down : Collaborators :=
  with_fetch (fun _ => Rejected "Failed to fetch") all_resolve.

Definition ten : Json := JNumber (QArith_base.Qmake 10 1).
Definition twenty : Json := JNumber (QArith_base.Qmake 20 1).

(** The page after one successful [get_weather]. *)
Definition after_first_lookup : World :=
  snd (get_weather network_fails_after_first ten twenty (JString "W")
         initial_world).

(** How often a trace asks for an animation frame. *)
Definition is_frame_request (c : Call) : bool :=
  match c with
  | RequestAnimationFrame => true
  | _ => false
  end.

Definition frame_requests (trace : list Call) : nat :=
  length (List.filter is_frame_request trace).

(** The browser runs [render] again for each frame that [render] itself
    requested; [fuel] bounds how many frames are looked at. *)
Fixpoint animation (env : Collaborators) (fuel : nat) (w : World) : World :=
  match fuel with
  | O => w
  | S fuel' =>
      let w' := snd (render env w) in
      if (frame_requests (calls w) <? frame_requests (calls w'))%nat
      then animation env fuel' w'
      else w'
  end.

(** A connected page in VAD mode. *)
Definition connected_vad : World :=
  with_page (fun p => set_canPushToTalk false (set_isConnected true p))
    initial_world.

(** The recorder refuses [end()], as it does when it was never begun. *)
Definition recorder_not_begun : Collaborators :=
  with_recorder_end
    (fun _ => Rejected "Session ended: please call .begin() first")
    all_resolve.

(** The remote endpoint refuses the session. *)
Definition handshake_fails : Collaborators :=
  with_client_connect (fun _ => Rejected "handshake failed") all_resolve.

(** A completed assistant item with two samples of audio. *)
Definition completed_item : ItemType :=
  {| id := "item_1"; role := Some "assistant"; status := "completed";
     formatted := {| audio := Some [1; 2]; text := None;
                     transcript := Some "Hello"; file := None |} |}.

Definition one_item_world : World :=
  {| page := initial_page; heap := {[ 0%nat := completed_item ]};
     conversation := [0%nat]; now := now initial_world; calls := [] |}.

(** Every decode returns a new object URL, numbered by the decodes so far. *)
Definition new_url_per_decode : Collaborators :=
  with_recorder_decode
    (fun h _ => Resolved {| url := if Nat.eqb (decodes h) 0
                                   then "blob:1" else "blob:2" |})
    all_resolve.

(** ** The rest of the page *)

(** *** Relative timestamps of the event log *)

(** [pad]: the number as a decimal string, with ['0'] put in front while
    it is shorter than two characters.  Each turn of the loop makes the
    string one character longer, so two turns are enough. *)
Fixpoint pad_loop (fuel : nat) (s : string) : string :=
  match fuel with
  | O => s
  | S fuel' =>
      if (String.length s <? 2)%nat then pad_loop fuel' ("0" +:+ s) else s
  end.

Definition pad (n : Z) : string := pad_loop 2 (pretty n).

Section FormatTime.

(** [new Date(s).valueOf()]: the milliseconds of an ISO timestamp. *)
Variable valueOf : string -> Z.

(** [Math.floor(x / k)] is [/] on integers and [%] is the remainder that
    takes the sign of the dividend. *)
Definition formatTime (p : PageState) (timestamp : string) : string :=
  let t0 := valueOf (startTimeRef p) in
  let t1 := valueOf timestamp in
  let delta := t1 - t0 in
  let hs := Z.rem (delta / 10) 100 in
  let s := Z.rem (delta / 1000) 60 in
  let m := Z.rem (delta / 60000) 60 in
  pad m +:+ ":" +:+ pad s +:+ "." +:+ pad hs.

End FormatTime.

(** *** Expanding an event of the log *)

(** The names every object inherits from [Object.prototype].  Read on an
    object that has no own property of that name, each gives a function
    (for [__proto__], the prototype itself): a truthy value. *)
Definition inherited_names : list string :=
  ["constructor"; "hasOwnProperty"; "isPrototypeOf"; "propertyIsEnumerable";
   "toLocaleString"; "toString"; "valueOf"; "__proto__";
   "__defineGetter__"; "__defineSetter__"; "__lookupGetter__";
   "__lookupSetter__"].

Definition inherited (k : string) : bool :=
  existsb (String.eqb k) inherited_names.

(** [o[k]] as a condition, on an object whose own properties are booleans:
    an own property decides, and without one the read goes to the
    prototype. *)
Definition truthy_property (o : gmap string bool) (k : string) : bool :=
  match o !! k with
  | Some b => b
  | None => inherited k
  end.

(** [expandedEvents] holds [true] under the ids of the expanded events. *)
Definition toggleEventDetails (eventId : string)
  (expandedEvents : gmap string bool) : gmap string bool :=
  if truthy_property expandedEvents eventId
  then delete eventId expandedEvents
  else <[eventId := true]> expandedEvents.

(** *** What the template shows for an item *)

(** [a || b] on strings: [a] unless it is missing or empty. *)
Definition or_else (a : option string) (b : string) : string :=
  if truthy_string a then default "" a else b.

(** The text of a user item. *)
Definition user_content (f : Formatted) : string :=
  or_else (transcript f)
    (if truthy_length (audio f) then "(awaiting transcript)"
     else or_else (text f) "(item sent)").

(** The text of an assistant item. *)
Definition assistant_content (f : Formatted) : string :=
  or_else (transcript f) (or_else (text f) "(truncated)").

(** *** The toggle between manual and VAD mode (Toggle.vue) *)

(** [values.indexOf(s)]: the first position of [s], or [-1]. *)
Fixpoint indexOf (s : string) (values : list string) : Z :=
  match values with
  | [] => -1
  | v :: rest =>
      if String.eqb v s then 0
      else let i := indexOf s rest in if i <? 0 then -1 else i + 1
  end.

(** The value the toggle starts with: a boolean default as it is, a
    string default by its position among the values. *)
Definition Toggle_initialValue (defaultValue : string + bool)
  (values : list string) : bool :=
  match defaultValue with
  | inl s => negb (Z.max 0 (indexOf s values) =? 0)
  | inr b => b
  end.



(** *** Reading the event log *)

(** How many events a record stands for: one more than its counter. *)
Definition occurrences (r : RealtimeEvent) : Z := or_zero (count r) + 1.

Definition total_occurrences (log : list RealtimeEvent) : Z :=
  foldr (fun r acc => occurrences r + acc) 0 log.

(** The types of the records, in order. *)
Definition log_types (log : list RealtimeEvent) : list string :=
  (fun r => type (event r)) <$> log.

(** No record is followed by a record of the same type. *)
Definition adjacent_distinct (log : list RealtimeEvent) : Prop :=
  forall i a b,
    log_types log !! i = Some a -> log_types log !! S i = Some b -> a <> b.

(** The audio chunks a trace hands to the player, with their track. *)
Definition enqueued (trace : list Call) : list (list Z * string) :=
  omap (fun c => match c with
                 | WavStreamPlayer_add16BitPCM samples track =>
                     Some (samples, track)
                 | _ => None
                 end) trace.

(** *** Reading a formatted time back *)

Definition digit_value (c : Ascii.ascii) : Z :=
  Z.of_nat (Ascii.nat_of_ascii c) - 48.

Definition two_digits_value (a b : Ascii.ascii) : Z :=
  10 * digit_value a + digit_value b.

(** The hundredths of a second that a string of the form [mm:ss.hh]
    stands for. *)
Definition centiseconds_shown (s : string) : option Z :=
  match s with
  | String m1 (String m0 (String c1 (String s1 (String s0 (String c2
      (String h1 (String h0 EmptyString))))))) =>
      if Ascii.eqb c1 ":"%char && Ascii.eqb c2 "."%char
      then Some ((two_digits_value m1 m0 * 60 + two_digits_value s1 s0) * 100
                 + two_digits_value h1 h0)
      else None
  | _ => None
  end.

(** Counters written by the listener stay non-negative. *)
Definition counters_sound (log : list RealtimeEvent) : Prop :=
  Forall (fun r => 0 <= or_zero (count r)) log.

(** *** The toggle of the page *)



(** The calls a handler made: the trace after it, without the trace before
    it. *)
Definition new_calls (w w' : World) : list Call :=
  drop (length (calls w)) (calls w').

(** The calls of one delivery of a conversation update that come before
    any decode: the client's items are read and the audio of the delta, if
    there is any, is handed to the player under the id of the item. *)
Definition delivery_prefix (delta : option Delta) (it : ItemType)
  : list Call :=
  Client_getItems ::
    match delta ≫= delta_audio with
    | Some chunk => [WavStreamPlayer_add16BitPCM chunk (id it)]
    | None => []
    end.

(** * Properties *)

(** ** Tactics *)

(** Unfolding the monad of the handlers. *)
Ltac run :=
  unfold bind, call, assign, read, peek, when, ret, lift, throw, clock,
    getItems, deref, assign_file; cbn.

(** Case analysis on what a collaborator answers. *)
Ltac answer o := destruct o eqn:?; cbn.

(** Traces are compared as flat lists. *)
Ltac flat := rewrite <- ?app_assoc; cbn [app].

(** ** The event log *)

Section EventLog.

Implicit Types (e lastEvent : RealtimeEvent) (current pre : list RealtimeEvent).

Lemma update_empty e : realtime_event_update e [] = [e].
Proof. reflexivity. Qed.

Lemma update_same_type pre lastEvent e :
  type (event lastEvent) = type (event e) ->
  realtime_event_update e (pre ++ [lastEvent]) =
  pre ++ [set_count (Some (or_zero (count lastEvent) + 1)) lastEvent].
Proof.
  intros Hty. unfold realtime_event_update.
  rewrite last_snoc, Hty, String.eqb_refl.
  now rewrite removelast_last.
Qed.

Lemma update_other_type pre lastEvent e :
  type (event lastEvent) <> type (event e) ->
  realtime_event_update e (pre ++ [lastEvent]) = (pre ++ [lastEvent]) ++ [e].
Proof.
  intros Hty. unfold realtime_event_update.
  rewrite last_snoc.
  destruct (String.eqb_spec (type (event lastEvent)) (type (event e)));
    [contradiction | reflexivity].
Qed.

Lemma update_length_cases e current :
  length (realtime_event_update e current) = length current \/
  length (realtime_event_update e current) = S (length current).
Proof.
  destruct (last current) as [l|] eqn:Hlast.
  - apply last_Some in Hlast as [pre ->].
    destruct (decide (type (event l) = type (event e))) as [Heq|Hne].
    + left. rewrite update_same_type by exact Heq.
      now rewrite !length_app.
    + right. rewrite update_other_type by exact Hne.
      rewrite (length_app (pre ++ [l])). simpl. lia.
  - right. unfold realtime_event_update. rewrite Hlast.
    rewrite length_app. simpl. lia.
Qed.

Lemma update_length_le e current :
  (length current <= length (realtime_event_update e current))%nat.
Proof. destruct (update_length_cases e current); lia. Qed.

Lemma appended_length_le es current :
  (length current <= length (appended es current))%nat.
Proof.
  revert current. induction es as [|e es IH]; intros current; simpl.
  - lia.
  - etrans; [apply (update_length_le e) | apply IH].
Qed.

Lemma appended_app es es' current :
  appended (es ++ es') current = appended es' (appended es current).
Proof. apply fold_left_app. Qed.

Lemma set_count_twice c c' e : set_count c (set_count c' e) = set_count c e.
Proof. reflexivity. Qed.

(** A run of same-typed events after a record of that type only moves the
    counter of that record. *)
Lemma appended_burst es : forall pre lastEvent,
  es <> [] ->
  Forall (fun e => type (event e) = type (event lastEvent)) es ->
  0 <= or_zero (count lastEvent) ->
  appended es (pre ++ [lastEvent]) =
  pre ++ [set_count
            (Some (or_zero (count lastEvent) + Z.of_nat (length es)))
            lastEvent].
Proof.
  induction es as [|e es IH]; intros pre l Hne Hall Hpos; [done|].
  apply Forall_cons in Hall as [He Hall].
  cbn [appended fold_left].
  rewrite update_same_type by done.
  destruct es as [|e' es'].
  - simpl. do 3 f_equal.
  - change (fold_left _ (e' :: es') ?c) with (appended (e' :: es') c).
    rewrite IH; [| done | exact Hall |].
    + rewrite set_count_twice. simpl count.
      assert (Hz : or_zero (Some (or_zero (count l) + 1))
                   = or_zero (count l) + 1).
      { unfold or_zero at 1.
        destruct (Z.eqb_spec (or_zero (count l) + 1) 0); lia. }
      rewrite Hz. do 4 f_equal.
      rewrite (length_cons e). lia.
    + simpl count. unfold or_zero at 1.
      destruct (Z.eqb_spec (or_zero (count l) + 1) 0); lia.
Qed.

End EventLog.

(** The handler stores exactly what the update function computes. *)
Lemma deliver_events_log es : forall w,
  fst (deliver_events es w) = Returned tt /\
  realtimeEvents (page (snd (deliver_events es w))) =
  appended es (realtimeEvents (page w)).
Proof.
  induction es as [|e es IH]; intros w; [done|].
  cbn [deliver_events appended fold_left].
  unfold bind at 1. unfold on_realtime_event, setRealtimeEvents, assign.
  apply IH.
Qed.

(** ** C2: when an event is merged *)

(** C2, as the code has it: on every append, the new event is merged into
    the last stored record (that record's count becomes [(count || 0) + 1]
    and the log keeps its length) if and only if the log has a last record
    whose [type] equals the new event's [type]; the [source] is not
    compared.  Otherwise the delivered event is appended unchanged as a new
    record, so its count is unset as the client delivers it. *)
Theorem event_merge_on_type (e : RealtimeEvent) (w : World) :
  let current := realtimeEvents (page w) in
  let log' := realtimeEvents (page (snd (on_realtime_event e w))) in
  ((exists lastEvent,
      last current = Some lastEvent /\
      type (event lastEvent) = type (event e))
   <-> length log' = length current) /\
  (forall lastEvent,
      last current = Some lastEvent ->
      type (event lastEvent) = type (event e) ->
      log' = removelast current ++
             [set_count (Some (or_zero (count lastEvent) + 1)) lastEvent]) /\
  ((forall lastEvent,
      last current = Some lastEvent ->
      type (event lastEvent) <> type (event e)) ->
   log' = current ++ [e]).
Proof.
  intros current log'.
  assert (Hlog : log' = realtime_event_update e current) by reflexivity.
  rewrite Hlog. clearbody current. clear Hlog log'.
  destruct (last current) as [l|] eqn:Hlast.
  - apply last_Some in Hlast as [pre ->].
    destruct (decide (type (event l) = type (event e))) as [Heq|Hne].
    + rewrite update_same_type by exact Heq. repeat split.
      * intros _. now rewrite !length_app.
      * intros _. now exists l.
      * intros l' Hl' _. injection Hl' as <-.
        now rewrite removelast_last.
      * intros Hno. exfalso. now apply (Hno l).
    + rewrite update_other_type by exact Hne. repeat split.
      * intros (l' & Hl' & Hty). injection Hl' as <-. contradiction.
      * rewrite (length_app (pre ++ [l])). simpl. lia.
      * intros l' Hl' Hty. injection Hl' as <-. contradiction.
  - unfold realtime_event_update. rewrite Hlast. repeat split.
    + intros (l' & Hl' & _). discriminate.
    + rewrite length_app. simpl. lia.
    + intros l' Hl'. discriminate.
Qed.

Lemma event_merge_on_type_witness :
  realtimeEvents
    (page (snd (on_realtime_event
                  (emitted SourceServer "response.audio.delta")
                  (with_log [emitted SourceServer "response.created"]
                            initial_world)))) =
  [emitted SourceServer "response.created";
   emitted SourceServer "response.audio.delta"].
Proof.
  apply (proj2 (proj2 (event_merge_on_type
                         (emitted SourceServer "response.audio.delta")
                         (with_log [emitted SourceServer "response.created"]
                                   initial_world)))).
  intros lastEvent Hlast. injection Hlast as <-. discriminate.
Defined.

(** C2 as stated fails: a client record followed by a server event of the
    same type is merged, although the sources differ. *)
Lemma event_merge_ignores_source :
  let lastEvent := emitted SourceClient "session.update" in
  let e := emitted SourceServer "session.update" in
  let log' := realtimeEvents
                (page (snd (on_realtime_event e
                              (with_log [lastEvent] initial_world)))) in
  source e <> source lastEvent /\
  log' = [set_count (Some 1) lastEvent] /\
  length log' = length [lastEvent].
Proof. repeat split. discriminate. Qed.

(** ** C6: counting a burst *)

(** C6: a run of consecutive events of one type, delivered after a log
    whose last record (if any) has another type, produces exactly one new
    record; the first occurrence leaves its count unset and each further
    occurrence adds one, so fifty events give count 49.  Over every
    sequence of appends the length of the log never decreases. *)
Theorem burst_counting :
  (forall (w : World) (e0 : RealtimeEvent) (es : list RealtimeEvent),
     (forall lastEvent,
        last (realtimeEvents (page w)) = Some lastEvent ->
        type (event lastEvent) <> type (event e0)) ->
     count e0 = None ->
     Forall (fun e => type (event e) = type (event e0)) es ->
     realtimeEvents (page (snd (deliver_events (e0 :: es) w))) =
     realtimeEvents (page w) ++
     [set_count (match es with
                 | [] => None
                 | _ => Some (Z.of_nat (length es))
                 end) e0]) /\
  (forall (w : World) (es es' : list RealtimeEvent),
     (length (realtimeEvents (page (snd (deliver_events es w)))) <=
      length (realtimeEvents
                (page (snd (deliver_events (es ++ es') w)))))%nat).
Proof.
  split.
  - intros w e0 es Hlast Hcount Hall.
    rewrite (proj2 (deliver_events_log (e0 :: es) w)).
    cbn [appended fold_left].
    assert (Hfirst : realtime_event_update e0 (realtimeEvents (page w))
                     = realtimeEvents (page w) ++ [e0]).
    { destruct (last (realtimeEvents (page w))) as [l|] eqn:Hl.
      - pose proof (Hlast l eq_refl) as Hne.
        apply last_Some in Hl as [pre Hpre]. rewrite Hpre.
        now apply update_other_type.
      - unfold realtime_event_update. now rewrite Hl. }
    rewrite Hfirst.
    destruct es as [|e es].
    + simpl. destruct e0; simpl in *; now subst.
    + change (fold_left _ (e :: es) ?c) with (appended (e :: es) c).
      rewrite appended_burst; [| done | exact Hall | rewrite Hcount; done].
      rewrite Hcount. reflexivity.
  - intros w es es'.
    rewrite (proj2 (deliver_events_log es w)).
    rewrite (proj2 (deliver_events_log (es ++ es') w)).
    rewrite appended_app. apply appended_length_le.
Qed.

Lemma burst_counting_witness :
  realtimeEvents
    (page (snd (deliver_events
                  (replicate 50 (emitted SourceServer "response.audio.delta"))
                  initial_world))) =
  [set_count (Some 49) (emitted SourceServer "response.audio.delta")].
Proof.
  apply (proj1 burst_counting initial_world
               (emitted SourceServer "response.audio.delta")
               (replicate 49 (emitted SourceServer "response.audio.delta"))).
  - intros lastEvent Hlast. discriminate.
  - reflexivity.
  - apply Forall_replicate. reflexivity.
Defined.

Lemma cancellations_app t1 t2 :
  cancellations (t1 ++ t2) = cancellations t1 ++ cancellations t2.
Proof. apply omap_app. Qed.

(** ** C1: the interrupt carries the playing track and its sample offset *)

(** C1: in both places where the page interrupts playback (the start of
    push to talk and the 'conversation.interrupted' listener), when
    [interrupt()] reports a track id and an offset, the one cancellation
    request sent carries exactly that id and that offset; when it reports
    [null], or a report without a track id, no cancellation request is
    sent.  (The test on the id is JavaScript truthiness, so an empty id
    counts as no track.) *)
Theorem interrupt_sample_accuracy (env : Collaborators) (w : World)
  (handler : M unit) :
  handler = startRecording env \/ handler = on_conversation_interrupted env ->
  let sent := cancellations (calls (snd (handler w))) in
  (forall t o,
     t <> "" ->
     player_interrupt env (calls w) =
       Resolved (Some {| trackId := Some t; offset := o |}) ->
     sent = cancellations (calls w) ++ [(t, o)]) /\
  (forall r,
     player_interrupt env (calls w) = Resolved r ->
     r = None \/ (exists o, r = Some {| trackId := None; offset := o |}) \/
       (exists o, r = Some {| trackId := Some ""; offset := o |}) ->
     sent = cancellations (calls w)).
Proof.
  intros Hhandler sent. subst sent. split.
  - intros t o Ht Hreport.
    assert (Htruthy : negb (String.eqb t "") = true).
    { destruct (String.eqb_spec t ""); [contradiction | reflexivity]. }
    destruct Hhandler as [-> | ->].
    + unfold startRecording. run. rewrite Hreport. cbn. rewrite Htruthy.
      run. answer (client_cancelResponse env (calls w ++ [WavStreamPlayer_interrupt])).
      * answer (recorder_record env ((calls w ++ [WavStreamPlayer_interrupt]) ++ [Client_cancelResponse t o]));
          rewrite !cancellations_app; cbn; now rewrite !app_nil_r.
      * rewrite !cancellations_app; cbn; now rewrite !app_nil_r.
    + unfold on_conversation_interrupted. run. rewrite Hreport. cbn.
      rewrite Htruthy. run.
      answer (client_cancelResponse env (calls w ++ [WavStreamPlayer_interrupt]));
        rewrite !cancellations_app; cbn; now rewrite !app_nil_r.
  - intros r Hreport Hidle.
    assert (Hfalsy : truthy_string (r ≫= trackId) = false).
    { destruct Hidle as [-> | [[o ->] | [o ->]]]; reflexivity. }
    destruct Hhandler as [-> | ->].
    + unfold startRecording. run. rewrite Hreport. cbn. rewrite Hfalsy.
      run. answer (recorder_record env (calls w ++ [WavStreamPlayer_interrupt]));
        rewrite !cancellations_app; cbn; now rewrite !app_nil_r.
    + unfold on_conversation_interrupted. run. rewrite Hreport. cbn.
      rewrite Hfalsy. run.
      rewrite !cancellations_app; cbn; now rewrite !app_nil_r.
Qed.

Lemma interrupt_sample_accuracy_witness :
  cancellations
    (calls (snd (startRecording
                   (interrupt_reports
                      (Some {| trackId := Some "t1"; offset := 4800 |}))
                   initial_world))) =
  [("t1", 4800)].
Proof.
  apply (proj1 (interrupt_sample_accuracy
                  (interrupt_reports
                     (Some {| trackId := Some "t1"; offset := 4800 |}))
                  initial_world _ (or_introl eq_refl)) "t1" 4800).
  - discriminate.
  - reflexivity.
Defined.

(** ** C10: [set_memory] *)

(** C10: for every prior content of the memory store and every pair of a
    key and a value, the [set_memory] handler maps the key to the value,
    leaves the value of every other key as it was, calls no collaborator
    and resolves with [{ok: true}]. *)
Theorem set_memory_merge (key value : string) (w : World) :
  let prior := default ∅ (memoryKv_value (page w)) in
  let r := set_memory key value w in
  fst r = Returned (JObject [("ok", JBool true)]) /\
  calls (snd r) = calls w /\
  exists store : gmap string string,
    memoryKv_value (page (snd r)) = Some store /\
    store !! key = Some value /\
    (forall k, k <> key -> store !! k = prior !! k).
Proof.
  cbn. repeat split.
  exists (<[key := value]> (default ∅ (memoryKv_value (page w)))).
  repeat split.
  - apply lookup_insert_eq.
  - intros k Hk. now apply lookup_insert_ne.
Qed.

(** The scenario of the specification: one call on the fresh page. *)
Example set_memory_city :
  memoryKv_value (page (snd (set_memory "city" "SF" initial_world))) =
  Some {["city" := "SF"]}.
Proof. reflexivity. Qed.

(** ** C9: [get_weather] when the lookup fails *)

Lemma weather_patch_lookup lat lng location (prior : option (gmap string Json)) :
  let m := spread prior (weather_patch lat lng location) in
  m !! "lat" = Some lat /\ m !! "lng" = Some lng /\
  m !! "location" = Some location /\
  (forall k, k <> "lat" -> k <> "lng" -> k <> "location" ->
             m !! k = default ∅ prior !! k).
Proof.
  unfold spread, weather_patch. cbn. repeat split.
  - now apply lookup_union_Some_l.
  - now apply lookup_union_Some_l.
  - now apply lookup_union_Some_l.
  - intros k H1 H2 H3. apply lookup_union_r.
    rewrite !lookup_insert_ne by done. now apply lookup_singleton_ne.
Qed.

(** C9, as the code has it: when the weather lookup fails (the request is
    rejected, the body cannot be read, or the body has no [current]
    object), the marker holds exactly the given lat, lng and location, its
    other fields (temperature, wind speed) are what they were before the
    call, so none is gained, and the handler itself ends by throwing the
    error of the lookup: it produces no tool output of its own. *)
Theorem get_weather_lookup_failure (env : Collaborators) (w : World)
  (lat lng location : Json) (err : string) :
  fetch env (calls w) = Rejected err \/
  (fetch env (calls w) = Resolved tt /\
   response_json env (calls w ++ [Fetch_forecast lat lng]) = Rejected err) \/
  (fetch env (calls w) = Resolved tt /\
   (exists body,
      response_json env (calls w ++ [Fetch_forecast lat lng]) = Resolved body
      /\ get_prop body "current" = Returned JUndefined)
   /\ err = "TypeError") ->
  let r := get_weather env lat lng location w in
  fst r = Thrown err /\
  exists m : gmap string Json,
    marker (page (snd r)) = Some m /\
    m !! "lat" = Some lat /\ m !! "lng" = Some lng /\
    m !! "location" = Some location /\
    (forall k, k <> "lat" -> k <> "lng" -> k <> "location" ->
               m !! k = default ∅ (marker (page w)) !! k).
Proof.
  intros Hfail r. subst r.
  pose proof (weather_patch_lookup lat lng location (marker (page w)))
    as Hpatch.
  unfold get_weather, setMarker, setCoords. run.
  destruct Hfail as [Hf | [[Hf Hj] | (Hf & (body & Hj & Hcur) & ->)]].
  - rewrite Hf. cbn. split; [reflexivity|].
    eexists; split; [reflexivity | exact Hpatch].
  - rewrite Hf. cbn. rewrite Hj. cbn. split; [reflexivity|].
    eexists; split; [reflexivity | exact Hpatch].
  - rewrite Hf. cbn. rewrite Hj. cbn. rewrite Hcur. cbn.
    split; [reflexivity|].
    eexists; split; [reflexivity | exact Hpatch].
Qed.

Lemma get_weather_lookup_failure_witness :
  fst (get_weather network_fails_after_first ten twenty (JString "X")
         after_first_lookup) = Thrown "Failed to fetch" /\
  exists m : gmap string Json,
    marker (page (snd (get_weather network_fails_after_first ten twenty
                         (JString "X") after_first_lookup))) = Some m /\
    m !! "lat" = Some ten /\ m !! "lng" = Some twenty /\
    m !! "location" = Some (JString "X") /\
    (forall k, k <> "lat" -> k <> "lng" -> k <> "location" ->
               m !! k = default ∅ (marker (page after_first_lookup)) !! k).
Proof.
  apply (get_weather_lookup_failure network_fails_after_first
           after_first_lookup ten twenty (JString "X") "Failed to fetch").
  left. reflexivity.
Defined.

(** C9 as stated fails: on a failed lookup the handler throws instead of
    reporting a tool output, on the fresh page as after an earlier
    success; and after an earlier success the marker keeps the temperature
    of that earlier lookup next to the new location. *)
Lemma get_weather_throws_on_failure :
  fst (get_weather network_down ten twenty (JString "X") initial_world)
  = Thrown "Failed to fetch" /\
  fst (get_weather network_fails_after_first ten twenty (JString "X")
         after_first_lookup) = Thrown "Failed to fetch" /\
  (marker (page (snd (get_weather network_fails_after_first ten twenty
                        (JString "X") after_first_lookup)))
     ≫= (fun m => m !! "location")) = Some (JString "X") /\
  (marker (page (snd (get_weather network_fails_after_first ten twenty
                        (JString "X") after_first_lookup)))
     ≫= (fun m => m !! "temperature")) =
  Some (JObject [("value", JNumber (QArith_base.Qmake 15 1));
                 ("units", JString "C")]).
Proof. repeat split; vm_compute; reflexivity. Qed.

(** ** C8: the render loop and the loaded flag *)

(** C8 does not hold of the code: [render] tests the ref object [isLoaded],
    which is truthy whatever its [value], so after [onUnmounted] has cleared
    the flag a run of [render] still ends by requesting the next frame
    (unless a frequency read throws). *)
Theorem render_ignores_loaded_flag (env : Collaborators) (w : World) :
  let unmounted := snd (onUnmounted w) in
  isLoaded_value (page unmounted) = false /\
  ((exists e, fst (render env unmounted) = Thrown e) \/
   last (calls (snd (render env unmounted))) = Some RequestAnimationFrame).
Proof.
  split; [reflexivity|].
  unfold render, onUnmounted. run.
  repeat match goal with
    | |- context [clientCanvasRef (page w)] =>
        destruct (clientCanvasRef (page w)); cbn
    | |- context [serverCanvasRef (page w)] =>
        destruct (serverCanvasRef (page w)); cbn
    | |- context [if has2d ?c then _ else _] => destruct (has2d c); cbn
    | |- context [recorder_recording env ?h] =>
        destruct (recorder_recording env h); cbn
    | |- context [player_analyser env ?h] =>
        destruct (player_analyser env h); cbn
    | |- context [recorder_getFrequencies env ?h] =>
        destruct (recorder_getFrequencies env h); cbn
    | |- context [player_getFrequencies env ?h] =>
        destruct (player_getFrequencies env h); cbn
    end;
    solve [ left; eexists; reflexivity
          | right; apply last_snoc ].
Qed.

Lemma render_without_canvas env w :
  clientCanvasRef (page w) = None ->
  serverCanvasRef (page w) = None ->
  render env w =
  (Returned tt, with_call RequestAnimationFrame (with_call NextTick w)).
Proof.
  intros Hc Hs. unfold render. run. rewrite Hc. cbn. rewrite Hs. reflexivity.
Qed.

Lemma frame_requests_app t1 t2 :
  frame_requests (t1 ++ t2) = (frame_requests t1 + frame_requests t2)%nat.
Proof. unfold frame_requests. now rewrite List.filter_app, length_app. Qed.

(** On the unmounted page every frame requests the next one: after [n]
    frames, [n] requests have been issued. *)
Lemma animation_never_stops (n : nat) :
  frame_requests
    (calls (animation all_resolve n (snd (onUnmounted initial_world)))) = n.
Proof.
  assert (H : forall n w,
             clientCanvasRef (page w) = None ->
             serverCanvasRef (page w) = None ->
             frame_requests (calls (animation all_resolve n w))
             = (frame_requests (calls w) + n)%nat).
  { clear n. induction n as [|n IH]; intros w Hc Hs.
    - cbn [animation]. lia.
    - cbn [animation]. rewrite render_without_canvas by assumption.
      cbn [snd with_call calls].
      rewrite !frame_requests_app.
      change (frame_requests [NextTick]) with 0%nat.
      change (frame_requests [RequestAnimationFrame]) with 1%nat.
      destruct (Nat.ltb_spec (frame_requests (calls w))
                  (frame_requests (calls w) + 0 + 1)); [|lia].
      rewrite IH by assumption.
      cbn [with_call calls]. rewrite !frame_requests_app.
      change (frame_requests [NextTick]) with 0%nat.
      change (frame_requests [RequestAnimationFrame]) with 1%nat.
      lia. }
  rewrite H by reflexivity. reflexivity.
Qed.

(** ** C7: the guard of push to talk *)

(** C7, as the code has it: the guard sits in the template, not in
    [startRecording].  The push-to-talk button exists only while
    [isConnected] and [canPushToTalk] (the page's flag for manual mode) are
    both set, so in every other state a press changes nothing and calls no
    collaborator, while with both flags set it runs [startRecording];
    [startRecording] itself is unguarded: from any state it sets
    [isRecording] and goes on to interrupt playback. *)
Theorem push_to_talk_gate (env : Collaborators) (w : World) :
  (isConnected (page w) = false \/ canPushToTalk (page w) = false ->
   dispatch env MouseDownPushToTalk w = (Returned tt, w)) /\
  (isConnected (page w) = true /\ canPushToTalk (page w) = true ->
   dispatch env MouseDownPushToTalk w = startRecording env w) /\
  isRecording (page (snd (startRecording env w))) = true /\
  (exists rest,
     calls (snd (startRecording env w)) =
     calls w ++ WavStreamPlayer_interrupt :: rest).
Proof.
  repeat split.
  - intros Hflags. unfold dispatch, pushToTalkRendered. run.
    destruct Hflags as [-> | ->]; [reflexivity|].
    now rewrite andb_false_r.
  - intros [Hc Hp]. unfold dispatch, pushToTalkRendered. run.
    now rewrite Hc, Hp.
  - unfold startRecording. run.
    answer (player_interrupt env (calls w)); [|reflexivity].
    destruct (truthy_string (a ≫= trackId)); cbn.
    + destruct a as [[[t|] o]|]; cbn.
      * answer (client_cancelResponse env (calls w ++ [WavStreamPlayer_interrupt])); [|reflexivity].
        answer (recorder_record env ((calls w ++ [WavStreamPlayer_interrupt]) ++ [Client_cancelResponse t o])); reflexivity.
      * answer (recorder_record env (calls w ++ [WavStreamPlayer_interrupt])); reflexivity.
      * answer (recorder_record env (calls w ++ [WavStreamPlayer_interrupt])); reflexivity.
    + answer (recorder_record env (calls w ++ [WavStreamPlayer_interrupt])); reflexivity.
  - unfold startRecording. run.
    answer (player_interrupt env (calls w)); [|exists []; reflexivity].
    destruct (truthy_string (a ≫= trackId)); cbn.
    + destruct a as [[[t|] o]|]; cbn.
      * answer (client_cancelResponse env (calls w ++ [WavStreamPlayer_interrupt]));
          [|eexists; rewrite <- app_assoc; reflexivity].
        answer (recorder_record env ((calls w ++ [WavStreamPlayer_interrupt]) ++ [Client_cancelResponse t o]));
          eexists; rewrite <- !app_assoc; reflexivity.
      * answer (recorder_record env (calls w ++ [WavStreamPlayer_interrupt]));
          eexists; rewrite <- app_assoc; reflexivity.
      * answer (recorder_record env (calls w ++ [WavStreamPlayer_interrupt]));
          eexists; rewrite <- app_assoc; reflexivity.
    + answer (recorder_record env (calls w ++ [WavStreamPlayer_interrupt]));
        eexists; rewrite <- app_assoc; reflexivity.
Qed.

Lemma push_to_talk_gate_witness :
  dispatch all_resolve MouseDownPushToTalk initial_world
  = (Returned tt, initial_world).
Proof.
  apply (proj1 (push_to_talk_gate all_resolve initial_world)).
  left. reflexivity.
Defined.

(** C7 as stated fails: [startRecording] called on the disconnected page,
    or on a connected page in VAD mode, sets [isRecording] and starts the
    capture stream. *)
Lemma startRecording_unguarded :
  (isConnected (page initial_world) = false /\
   isRecording (page initial_world) = false /\
   isRecording (page (snd (startRecording all_resolve initial_world))) = true /\
   calls (snd (startRecording all_resolve initial_world)) =
   [WavStreamPlayer_interrupt; WavRecorder_record]) /\
  (canPushToTalk (page connected_vad) = false /\
   isRecording (page connected_vad) = false /\
   isRecording (page (snd (startRecording all_resolve connected_vad))) = true /\
   calls (snd (startRecording all_resolve connected_vad)) =
   [WavStreamPlayer_interrupt; WavRecorder_record]).
Proof. repeat split. Qed.

(** ** C4: disconnecting *)

(** C4, as the code has it: whatever the state, [disconnectConversation]
    first resets the page (not connected, empty event log, empty item
    sequence, empty memory store, marker [null], default coordinates), and
    this part cannot fail.  It then runs the teardown steps in order
    (client disconnect, recorder end, player interrupt); the first step
    that fails ends the teardown, its error reaches the caller, and the
    steps after it are not run. *)
Theorem disconnect_resets_page (env : Collaborators) (w : World) :
  let r := disconnectConversation env w in
  let p := page (snd r) in
  (isConnected p = false /\ realtimeEvents p = [] /\ items p = [] /\
   memoryKv_value p = Some ∅ /\ marker p = None /\
   coords p = Some default_coords) /\
  (forall e,
     client_disconnect env (calls w) = Rejected e ->
     fst r = Thrown e /\ calls (snd r) = calls w ++ [Client_disconnect]) /\
  (forall e,
     client_disconnect env (calls w) = Resolved tt ->
     recorder_end env (calls w ++ [Client_disconnect]) = Rejected e ->
     fst r = Thrown e /\
     calls (snd r) = calls w ++ [Client_disconnect; WavRecorder_end]) /\
  (forall e,
     client_disconnect env (calls w) = Resolved tt ->
     recorder_end env (calls w ++ [Client_disconnect]) = Resolved tt ->
     player_interrupt env (calls w ++ [Client_disconnect; WavRecorder_end])
       = Rejected e ->
     fst r = Thrown e /\
     calls (snd r) =
     calls w ++ [Client_disconnect; WavRecorder_end;
                 WavStreamPlayer_interrupt]) /\
  (forall t,
     client_disconnect env (calls w) = Resolved tt ->
     recorder_end env (calls w ++ [Client_disconnect]) = Resolved tt ->
     player_interrupt env (calls w ++ [Client_disconnect; WavRecorder_end])
       = Resolved t ->
     fst r = Returned tt /\
     calls (snd r) =
     calls w ++ [Client_disconnect; WavRecorder_end;
                 WavStreamPlayer_interrupt]).
Proof.
  cbn zeta. unfold disconnectConversation. run.
  split; [|split; [|split; [|split]]].
  - answer (client_disconnect env (calls w)); [|done].
    answer (recorder_end env (calls w ++ [Client_disconnect])); [|done].
    answer (player_interrupt env
              ((calls w ++ [Client_disconnect]) ++ [WavRecorder_end])); done.
  - intros e H. now rewrite H.
  - intros e H H0. rewrite H. cbn. rewrite H0. cbn. now flat.
  - intros e H H0 H1. rewrite H. cbn. rewrite H0. cbn.
    flat. rewrite H1. cbn. now flat.
  - intros t H H0 H1. rewrite H. cbn. rewrite H0. cbn.
    flat. rewrite H1. cbn. now flat.
Qed.

Lemma disconnect_resets_page_witness :
  fst (disconnectConversation recorder_not_begun connected_vad)
  = Thrown "Session ended: please call .begin() first" /\
  calls (snd (disconnectConversation recorder_not_begun connected_vad))
  = calls connected_vad ++ [Client_disconnect; WavRecorder_end].
Proof.
  apply (proj1 (proj2 (proj2
           (disconnect_resets_page recorder_not_begun connected_vad)))
           "Session ended: please call .begin() first");
    reflexivity.
Defined.

(** C4 as stated fails: when the recorder refuses [end()], the call of
    [disconnectConversation] ends by throwing and the player is never
    interrupted; the page is reset all the same. *)
Lemma disconnect_raises_and_skips :
  fst (disconnectConversation recorder_not_begun connected_vad)
  = Thrown "Session ended: please call .begin() first" /\
  calls (snd (disconnectConversation recorder_not_begun connected_vad))
  = [Client_disconnect; WavRecorder_end] /\
  isConnected
    (page (snd (disconnectConversation recorder_not_begun connected_vad)))
  = false.
Proof. repeat split. Qed.

(** ** C5: a failed connect *)

(** C5, as the code has it: when a device acquisition step or the remote
    handshake of [connectConversation] fails, the error reaches the caller,
    [isConnected], set before the first step, stays set, the steps after
    the failing one are not run, and no release call is made: what was
    opened earlier in the attempt is left open. *)
Theorem connect_failure_not_undone (env : Collaborators) (w : World) :
  let r := connectConversation env w in
  let h := calls w ++ [Client_getItems] in
  (forall e,
     recorder_begin env h = Rejected e ->
     fst r = Thrown e /\ isConnected (page (snd r)) = true /\
     calls (snd r) = h ++ [WavRecorder_begin]) /\
  (forall e,
     recorder_begin env h = Resolved tt ->
     player_connect env (h ++ [WavRecorder_begin]) = Rejected e ->
     fst r = Thrown e /\ isConnected (page (snd r)) = true /\
     calls (snd r) = h ++ [WavRecorder_begin; WavStreamPlayer_connect]) /\
  (forall e,
     recorder_begin env h = Resolved tt ->
     player_connect env (h ++ [WavRecorder_begin]) = Resolved tt ->
     client_connect env (h ++ [WavRecorder_begin; WavStreamPlayer_connect])
       = Rejected e ->
     fst r = Thrown e /\ isConnected (page (snd r)) = true /\
     calls (snd r) =
     h ++ [WavRecorder_begin; WavStreamPlayer_connect; Client_connect]).
Proof.
  cbn zeta. unfold connectConversation. run.
  split; [|split].
  - intros e H. now rewrite H.
  - intros e H H0. rewrite H. cbn. rewrite H0. cbn. now flat.
  - intros e H H0 H1. rewrite H. cbn. rewrite H0. cbn.
    flat. rewrite <- (app_assoc (calls w)) in H1. cbn [app] in H1.
    rewrite H1. cbn. now flat.
Qed.

Lemma connect_failure_not_undone_witness :
  fst (connectConversation handshake_fails initial_world)
  = Thrown "handshake failed" /\
  isConnected (page (snd (connectConversation handshake_fails initial_world)))
  = true /\
  calls (snd (connectConversation handshake_fails initial_world)) =
  (calls initial_world ++ [Client_getItems]) ++
  [WavRecorder_begin; WavStreamPlayer_connect; Client_connect].
Proof.
  apply (proj2 (proj2
           (connect_failure_not_undone handshake_fails initial_world))
           "handshake failed");
    reflexivity.
Defined.

(** C5 as stated fails: after a failed handshake the page reports itself
    connected, and the recorder and the player, opened before the
    handshake, have received no closing call. *)
Lemma connect_failure_stays_connected :
  isConnected (page initial_world) = false /\
  fst (connectConversation handshake_fails initial_world)
  = Thrown "handshake failed" /\
  isConnected (page (snd (connectConversation handshake_fails initial_world)))
  = true /\
  calls (snd (connectConversation handshake_fails initial_world)) =
  [Client_getItems; WavRecorder_begin; WavStreamPlayer_connect;
   Client_connect].
Proof. repeat split. Qed.

(** ** C3: repeated conversation updates *)

Lemma decodes_app t1 t2 :
  decodes (t1 ++ t2) = (decodes t1 + decodes t2)%nat.
Proof. unfold decodes. now rewrite List.filter_app, length_app. Qed.

(** Counting the decodes of a trace that extends the trace of [w]. *)
Ltac count_decodes w :=
  rewrite !decodes_app; set (decodes (calls w)); unfold decodes; cbn; lia.

Lemma truthy_length_nonempty (samples : list Z) :
  samples <> [] -> truthy_length (Some samples) = true.
Proof. now destruct samples. Qed.

(** One delivery for a completed item with audio: the audio of the item is
    decoded, as the last call of the delivery; the answer of the decoder
    overwrites the file handle; the client's item array is shown. *)
Lemma conversation_updated_step env w item delta it samples :
  heap w !! item = Some it ->
  status it = "completed" ->
  audio (formatted it) = Some samples ->
  samples <> [] ->
  fst (on_conversation_updated env item delta w) = Returned tt ->
  let w' := snd (on_conversation_updated env item delta w) in
  (exists f,
     recorder_decode env (calls w ++ delivery_prefix delta it) samples
     = Resolved f /\
     heap w' = <[item := set_file (Some f) it]> (heap w)) /\
  calls w' =
    calls w ++ delivery_prefix delta it ++
    [WavRecorder_decode samples 24000 24000] /\
  decodes (calls w') = S (decodes (calls w)) /\
  items (page w') = conversation w /\
  conversation w' = conversation w.
Proof.
  intros Hit Hstatus Haudio Hne.
  pose proof (truthy_length_nonempty samples Hne) as Htruthy.
  unfold on_conversation_updated, setItems, delivery_prefix. run.
  destruct (delta ≫= delta_audio) as [chunk|]; cbn; rewrite Hit; cbn.
  - answer (player_add16BitPCM env (calls w ++ [Client_getItems]));
      [|discriminate].
    rewrite Hit. cbn. rewrite Hstatus, Haudio, Htruthy. cbn.
    destruct (recorder_decode env
                ((calls w ++ [Client_getItems]) ++
                 [WavStreamPlayer_add16BitPCM chunk (id it)]) samples)
      as [f|] eqn:Hdecode; cbn; [|discriminate].
    rewrite Hit. cbn. intros _.
    rewrite <- app_assoc in Hdecode. cbn [app] in Hdecode.
    split; [|split; [|split; [|split]]].
    + exists f. split; [first [exact Hdecode | reflexivity] | reflexivity].
    + now flat.
    + count_decodes w.
    + reflexivity.
    + reflexivity.
  - rewrite Hstatus, Haudio, Htruthy. cbn.
    destruct (recorder_decode env (calls w ++ [Client_getItems]) samples)
      as [f|] eqn:Hdecode; cbn; [|discriminate].
    rewrite Hit. cbn. intros _.
    split; [|split; [|split; [|split]]].
    + exists f. split; [first [exact Hdecode | reflexivity] | reflexivity].
    + now flat.
    + count_decodes w.
    + reflexivity.
    + reflexivity.
Qed.

(** An item that is not completed, or has no audio, is not decoded. *)
Lemma conversation_updated_no_decode env w item delta it :
  heap w !! item = Some it ->
  status it <> "completed" \/ audio (formatted it) = None \/
    audio (formatted it) = Some [] ->
  let w' := snd (on_conversation_updated env item delta w) in
  heap w' = heap w /\ decodes (calls w') = decodes (calls w).
Proof.
  intros Hit Hskip.
  assert (Hcond : String.eqb (status it) "completed"
                  && truthy_length (audio (formatted it)) = false).
  { destruct Hskip as [Hs | [-> | ->]].
    - destruct (String.eqb_spec (status it) "completed"); [contradiction|].
      reflexivity.
    - apply andb_false_r.
    - apply andb_false_r. }
  unfold on_conversation_updated, setItems. run.
  destruct (delta ≫= delta_audio) as [chunk|]; cbn; rewrite Hit; cbn.
  - answer (player_add16BitPCM env (calls w ++ [Client_getItems])).
    + rewrite Hit. cbn. rewrite Hcond. cbn. split; [reflexivity|].
      count_decodes w.
    + split; [reflexivity|]. count_decodes w.
  - rewrite Hcond. cbn. split; [reflexivity|].
    count_decodes w.
Qed.

(** C3, as the code has it: the listener has no memory of what it decoded.
    Delivering the same update for a completed item with non-empty audio
    twice in a row (both deliveries running to their end) shows the
    client's item array after each delivery, so the item sequence is the
    same, and decodes the audio on each delivery: each delivery ends with
    one call of the decoder on the audio of the item, at 24000 Hz, and
    overwrites the item's file handle with what the decoder answered to
    that call, so two deliveries make two decodes.  Only an item that
    is not completed, or has no or empty audio, is left undecoded. *)
Theorem conversation_update_decodes_each_time (env : Collaborators) :
  (forall w item delta it samples,
     heap w !! item = Some it ->
     status it = "completed" ->
     audio (formatted it) = Some samples ->
     samples <> [] ->
     let first := on_conversation_updated env item delta w in
     let second := on_conversation_updated env item delta (snd first) in
     fst first = Returned tt ->
     fst second = Returned tt ->
     items (page (snd first)) = conversation w /\
     items (page (snd second)) = conversation w /\
     decodes (calls (snd first)) = S (decodes (calls w)) /\
     decodes (calls (snd second)) = S (S (decodes (calls w))) /\
     calls (snd first) =
       calls w ++ delivery_prefix delta it ++
       [WavRecorder_decode samples 24000 24000] /\
     calls (snd second) =
       calls (snd first) ++ delivery_prefix delta it ++
       [WavRecorder_decode samples 24000 24000] /\
     exists f1 f2,
       recorder_decode env (calls w ++ delivery_prefix delta it) samples
       = Resolved f1 /\
       heap (snd first) = <[item := set_file (Some f1) it]> (heap w) /\
       recorder_decode env
         (calls (snd first) ++ delivery_prefix delta it) samples
       = Resolved f2 /\
       heap (snd second) = <[item := set_file (Some f2) it]> (heap w)) /\
  (forall w item delta it,
     heap w !! item = Some it ->
     status it <> "completed" \/ audio (formatted it) = None \/
       audio (formatted it) = Some [] ->
     heap (snd (on_conversation_updated env item delta w)) = heap w /\
     decodes (calls (snd (on_conversation_updated env item delta w))) =
     decodes (calls w)).
Proof.
  split.
  - intros w item delta it samples Hit Hstatus Haudio Hne first second
      Hfirst Hsecond.
    destruct (conversation_updated_step env w item delta it samples
                Hit Hstatus Haudio Hne Hfirst)
      as ((f1 & Hanswer1 & Hheap1) & Hcalls1 & Hdec1 & Hitems1 & Hconv1).
    fold first in Hheap1, Hcalls1, Hdec1, Hitems1, Hconv1.
    assert (Hit1 : heap (snd first) !! item = Some (set_file (Some f1) it)).
    { rewrite Hheap1. apply lookup_insert_eq. }
    destruct (conversation_updated_step env (snd first) item delta
                (set_file (Some f1) it) samples
                Hit1 Hstatus Haudio Hne Hsecond)
      as ((f2 & Hanswer2 & Hheap2) & Hcalls2 & Hdec2 & Hitems2 & Hconv2).
    fold second in Hheap2, Hcalls2, Hdec2, Hitems2, Hconv2.
    change (delivery_prefix delta (set_file (Some f1) it))
      with (delivery_prefix delta it) in Hanswer2, Hcalls2.
    split; [exact Hitems1|]. split; [now rewrite Hitems2|].
    split; [exact Hdec1|]. split; [now rewrite Hdec2, Hdec1|].
    split; [exact Hcalls1|]. split; [exact Hcalls2|].
    exists f1, f2.
    split; [exact Hanswer1|]. split; [exact Hheap1|].
    split; [exact Hanswer2|].
    rewrite Hheap2, Hheap1. apply insert_insert_eq.
  - intros w item delta it Hit Hskip.
    exact (conversation_updated_no_decode env w item delta it Hit Hskip).
Qed.

Lemma conversation_update_decodes_each_time_witness :
  items (page (snd (on_conversation_updated new_url_per_decode 0%nat None
                      one_item_world))) = conversation one_item_world /\
  items (page (snd (on_conversation_updated new_url_per_decode 0%nat None
                      (snd (on_conversation_updated new_url_per_decode 0%nat
                              None one_item_world)))))
  = conversation one_item_world /\
  decodes (calls (snd (on_conversation_updated new_url_per_decode 0%nat None
                         one_item_world)))
  = S (decodes (calls one_item_world)) /\
  decodes (calls (snd (on_conversation_updated new_url_per_decode 0%nat None
                         (snd (on_conversation_updated new_url_per_decode
                                 0%nat None one_item_world)))))
  = S (S (decodes (calls one_item_world))) /\
  calls (snd (on_conversation_updated new_url_per_decode 0%nat None
                one_item_world)) =
    calls one_item_world ++ delivery_prefix None completed_item ++
    [WavRecorder_decode [1; 2] 24000 24000] /\
  calls (snd (on_conversation_updated new_url_per_decode 0%nat None
                (snd (on_conversation_updated new_url_per_decode 0%nat None
                        one_item_world)))) =
    calls (snd (on_conversation_updated new_url_per_decode 0%nat None
                  one_item_world))
    ++ delivery_prefix None completed_item ++
    [WavRecorder_decode [1; 2] 24000 24000] /\
  exists f1 f2,
    recorder_decode new_url_per_decode
      (calls one_item_world ++ delivery_prefix None completed_item) [1; 2]
    = Resolved f1 /\
    heap (snd (on_conversation_updated new_url_per_decode 0%nat None
                 one_item_world)) =
    <[0%nat := set_file (Some f1) completed_item]> (heap one_item_world) /\
    recorder_decode new_url_per_decode
      (calls (snd (on_conversation_updated new_url_per_decode 0%nat None
                     one_item_world))
       ++ delivery_prefix None completed_item) [1; 2]
    = Resolved f2 /\
    heap (snd (on_conversation_updated new_url_per_decode 0%nat None
                 (snd (on_conversation_updated new_url_per_decode 0%nat None
                         one_item_world)))) =
    <[0%nat := set_file (Some f2) completed_item]> (heap one_item_world).
Proof.
  apply (proj1 (conversation_update_decodes_each_time new_url_per_decode)
           one_item_world 0%nat None completed_item [1; 2]);
    solve [reflexivity | discriminate].
Defined.

(** C3 as stated fails: the second delivery of the same update decodes the
    audio a second time, and the item's file handle is replaced by the
    result of that second decode. *)
Lemma second_delivery_decodes_again :
  let first := snd (on_conversation_updated new_url_per_decode 0%nat None
                      one_item_world) in
  let second := snd (on_conversation_updated new_url_per_decode 0%nat None
                       first) in
  calls second =
  [Client_getItems; WavRecorder_decode [1; 2] 24000 24000;
   Client_getItems; WavRecorder_decode [1; 2] 24000 24000] /\
  decodes (calls second) = 2%nat /\
  (file ∘ formatted <$> heap first !! 0%nat) =
    Some (Some {| url := "blob:1" |}) /\
  (file ∘ formatted <$> heap second !! 0%nat) =
    Some (Some {| url := "blob:2" |}).
Proof. repeat split; vm_compute; reflexivity. Qed.

(** * Further properties of the page *)

(** ** The event log as a whole *)

Section EventLogRuns.

Implicit Types (e r : RealtimeEvent) (es cur log : list RealtimeEvent).


Lemma log_types_snoc log r :
  log_types (log ++ [r]) = log_types log ++ [type (event r)].
Proof. unfold log_types. now rewrite fmap_app. Qed.

Lemma update_keeps_adjacent_distinct e cur :
  adjacent_distinct cur -> adjacent_distinct (realtime_event_update e cur).
Proof.
  intros Hcur.
  destruct (last cur) as [l|] eqn:Hlast.
  - apply last_Some in Hlast as [pre ->].
    destruct (decide (type (event l) = type (event e))) as [Heq|Hne].
    + rewrite update_same_type by exact Heq.
      unfold adjacent_distinct in *.
      rewrite log_types_snoc in *. exact Hcur.
    + rewrite update_other_type by exact Hne.
      unfold adjacent_distinct in *. intros i a b Ha Hb.
      rewrite (log_types_snoc (pre ++ [l])) in Ha, Hb.
      destruct (decide (S i < length (log_types (pre ++ [l])))%nat) as [Hlt|Hge].
      * rewrite lookup_app_l in Ha by lia.
        rewrite lookup_app_l in Hb by lia.
        exact (Hcur i a b Ha Hb).
      * assert (Hi : S i = length (log_types (pre ++ [l]))).
        { apply lookup_lt_Some in Hb. rewrite length_app in Hb.
          simpl in Hb. lia. }
        rewrite lookup_app_r in Hb by lia.
        rewrite Hi, Nat.sub_diag in Hb. injection Hb as <-.
        rewrite lookup_app_l in Ha by lia.
        rewrite log_types_snoc in Ha, Hi.
        rewrite length_app in Hi. simpl in Hi.
        rewrite lookup_app_r in Ha by lia.
        replace (i - length (log_types pre))%nat with 0%nat in Ha by lia.
        injection Ha as <-. exact Hne.
  - apply last_None in Hlast as ->. rewrite update_empty.
    intros i a b Ha Hb. destruct i; discriminate.
Qed.

Lemma appended_keeps_adjacent_distinct es : forall cur,
  adjacent_distinct cur -> adjacent_distinct (appended es cur).
Proof.
  induction es as [|e es IH]; intros cur Hcur; [exact Hcur|].
  apply IH, update_keeps_adjacent_distinct, Hcur.
Qed.

Lemma total_occurrences_snoc log r :
  total_occurrences (log ++ [r]) = total_occurrences log + occurrences r.
Proof.
  unfold total_occurrences. induction log as [|x log IH]; simpl; lia.
Qed.

Lemma update_counts e cur :
  count e = None -> counters_sound cur ->
  counters_sound (realtime_event_update e cur) /\
  total_occurrences (realtime_event_update e cur) = total_occurrences cur + 1.
Proof.
  intros He Hcur. unfold counters_sound in *.
  assert (Hocc : occurrences e = 1) by (unfold occurrences; now rewrite He).
  destruct (last cur) as [l|] eqn:Hlast.
  - apply last_Some in Hlast as [pre ->].
    apply Forall_app in Hcur as [Hpre Hl].
    apply Forall_inv in Hl. cbn beta in Hl.
    destruct (decide (type (event l) = type (event e))) as [Heq|Hne].
    + rewrite update_same_type by exact Heq.
      assert (Hz : or_zero (Some (or_zero (count l) + 1))
                   = or_zero (count l) + 1).
      { unfold or_zero at 1.
        destruct (Z.eqb_spec (or_zero (count l) + 1) 0); lia. }
      split.
      * apply Forall_app. split; [exact Hpre|].
        apply Forall_singleton.
        change (0 <= or_zero (Some (or_zero (count l) + 1))).
        rewrite Hz. lia.
      * rewrite !total_occurrences_snoc. unfold occurrences.
        change (count (set_count ?c l)) with c.
        rewrite Hz. lia.
    + rewrite update_other_type by exact Hne. split.
      * apply Forall_app. split.
        -- apply Forall_app. split; [exact Hpre | now apply Forall_singleton].
        -- apply Forall_singleton. rewrite He. done.
      * rewrite (total_occurrences_snoc (pre ++ [l])). lia.
  - apply last_None in Hlast as ->. rewrite update_empty. split.
    + apply Forall_singleton. rewrite He. done.
    + unfold total_occurrences. simpl. lia.
Qed.

Lemma appended_counts es : forall cur,
  Forall (fun e => count e = None) es -> counters_sound cur ->
  total_occurrences (appended es cur)
  = total_occurrences cur + Z.of_nat (length es).
Proof.
  induction es as [|e es IH]; intros cur Hes Hcur.
  - simpl. lia.
  - apply Forall_cons in Hes as [He Hes].
    destruct (update_counts e cur He Hcur) as [Hsound Htotal].
    cbn [appended fold_left].
    change (fold_left _ es ?c) with (appended es c).
    rewrite IH by assumption. rewrite Htotal, length_cons. lia.
Qed.




End EventLogRuns.

(** X1: from an event log in which no record is followed by a record of
    the same type (the empty log of a fresh connection is one), every
    sequence of deliveries leaves such a log: a burst never shows as two
    neighbouring records. *)
Theorem log_never_repeats_a_type (w : World) (es : list RealtimeEvent) :
  adjacent_distinct (realtimeEvents (page w)) ->
  adjacent_distinct (realtimeEvents (page (snd (deliver_events es w)))).
Proof.
  intros Hw. rewrite (proj2 (deliver_events_log es w)).
  now apply appended_keeps_adjacent_distinct.
Qed.

Lemma log_never_repeats_a_type_witness :
  adjacent_distinct
    (realtimeEvents
       (page (snd (deliver_events
                     [emitted SourceServer "response.audio.delta";
                      emitted SourceServer "response.audio.delta";
                      emitted SourceClient "response.cancel"]
                     initial_world)))).
Proof.
  apply (log_never_repeats_a_type initial_world).
  intros i a b Ha Hb. destruct i; discriminate.
Defined.

(** X2: nothing is lost in the counting.  Starting from the empty log, and
    with events delivered as the client emits them (no counter), the
    occurrences the records stand for, one plus the counter of each
    record, add up to the number of events delivered. *)
Theorem log_counts_every_event (w : World) (es : list RealtimeEvent) :
  realtimeEvents (page w) = [] ->
  Forall (fun e => count e = None) es ->
  total_occurrences (realtimeEvents (page (snd (deliver_events es w))))
  = Z.of_nat (length es).
Proof.
  intros Hw Hes. rewrite (proj2 (deliver_events_log es w)), Hw.
  rewrite appended_counts; [reflexivity | exact Hes | constructor].
Qed.

Lemma log_counts_every_event_witness :
  total_occurrences
    (realtimeEvents
       (page (snd (deliver_events
                     [emitted SourceServer "response.audio.delta";
                      emitted SourceServer "response.audio.delta";
                      emitted SourceClient "response.cancel"]
                     initial_world)))) = 3.
Proof.
  apply (log_counts_every_event initial_world
           [emitted SourceServer "response.audio.delta";
            emitted SourceServer "response.audio.delta";
            emitted SourceClient "response.cancel"]).
  - reflexivity.
  - repeat constructor.
Defined.



(** ** Relative timestamps *)

(** Between 0 and 99, [pad] gives the two decimal digits. *)
Lemma pad_two_digits (n : Z) :
  0 <= n < 100 ->
  exists a b, pad n = String a (String b EmptyString) /\
              two_digits_value a b = n.
Proof.
  intros Hn.
  assert (Hk : exists k, (k < 100)%nat /\ n = Z.of_nat k).
  { exists (Z.to_nat n). lia. }
  destruct Hk as (k & Hk & ->). clear Hn.
  do 100 (destruct k as [|k];
          [eexists _, _; split; vm_compute; reflexivity|]).
  lia.
Qed.

Lemma components_in_range (delta : Z) :
  0 <= delta ->
  0 <= Z.rem (delta / 10) 100 < 100 /\
  0 <= Z.rem (delta / 1000) 60 < 60 /\
  0 <= Z.rem (delta / 60000) 60 < 60.
Proof.
  intros Hd.
  rewrite !Z.rem_mod_nonneg by (try apply Z.div_pos; lia).
  repeat split; try apply Z.mod_pos_bound; lia.
Qed.

Lemma components_recombine (delta : Z) :
  0 <= delta ->
  (Z.rem (delta / 60000) 60 * 60 + Z.rem (delta / 1000) 60) * 100
  + Z.rem (delta / 10) 100
  = (delta / 10) mod 360000.
Proof.
  intros Hd.
  rewrite !Z.rem_mod_nonneg by (try apply Z.div_pos; lia).
  replace (delta / 1000) with (delta / 10 / 100)
    by (rewrite Z.div_div by lia; reflexivity).
  replace (delta / 60000) with (delta / 10 / 100 / 60)
    by (rewrite !Z.div_div by lia; reflexivity).
  assert (Hq : 0 <= delta / 10) by (apply Z.div_pos; lia).
  revert Hq. generalize (delta / 10). intros q Hq.
  Z.div_mod_to_equations. lia.
Qed.

Section FormatTimeFacts.

Variable valueOf : string -> Z.

(** X4: for a timestamp at or after the start time, [formatTime] gives
    eight characters of the form [mm:ss.hh]: two digits, a colon, two
    digits, a dot, two digits. *)
Theorem formatTime_shape (p : PageState) (timestamp : string) :
  0 <= valueOf timestamp - valueOf (startTimeRef p) ->
  String.length (formatTime valueOf p timestamp) = 8%nat /\
  String.get 2 (formatTime valueOf p timestamp) = Some ":"%char /\
  String.get 5 (formatTime valueOf p timestamp) = Some "."%char.
Proof.
  intros Hd. unfold formatTime. cbn zeta.
  set (d := valueOf timestamp - valueOf (startTimeRef p)) in *.
  destruct (components_in_range d Hd) as (Hhs & Hs & Hm).
  destruct (pad_two_digits _ Hhs) as (h1 & h0 & -> & _).
  destruct (pad_two_digits (Z.rem (d / 1000) 60)) as (s1 & s0 & -> & _);
    [lia|].
  destruct (pad_two_digits (Z.rem (d / 60000) 60)) as (m1 & m0 & -> & _);
    [lia|].
  repeat split.
Qed.

(** X5: the string can be read back.  For a timestamp at or after the
    start time, the digits shown are the elapsed hundredths of a second
    modulo one hour: the display is exact to the hundredth and wraps
    after sixty minutes. *)
Theorem formatTime_read_back (p : PageState) (timestamp : string) :
  0 <= valueOf timestamp - valueOf (startTimeRef p) ->
  centiseconds_shown (formatTime valueOf p timestamp) =
  Some (((valueOf timestamp - valueOf (startTimeRef p)) / 10) mod 360000).
Proof.
  intros Hd. unfold formatTime. cbn zeta.
  set (d := valueOf timestamp - valueOf (startTimeRef p)) in *.
  rewrite <- (components_recombine d Hd).
  destruct (components_in_range d Hd) as (Hhs & Hs & Hm).
  destruct (pad_two_digits _ Hhs) as (h1 & h0 & Eh & Vh).
  destruct (pad_two_digits (Z.rem (d / 1000) 60)) as (s1 & s0 & Es & Vs);
    [lia|].
  destruct (pad_two_digits (Z.rem (d / 60000) 60)) as (m1 & m0 & Em & Vm);
    [lia|].
  rewrite Eh, Es, Em, <- Vh, <- Vs, <- Vm. reflexivity.
Qed.

End FormatTimeFacts.

(** On a clock where ["start"] is at 0 ms and every other timestamp at
    83450 ms. *)
Lemma formatTime_shape_witness :
  String.length
    (formatTime (fun s => if String.eqb s "start" then 0 else 83450)
       (set_startTimeRef "start" initial_page) "later") = 8%nat /\
  String.get 2
    (formatTime (fun s => if String.eqb s "start" then 0 else 83450)
       (set_startTimeRef "start" initial_page) "later") = Some ":"%char /\
  String.get 5
    (formatTime (fun s => if String.eqb s "start" then 0 else 83450)
       (set_startTimeRef "start" initial_page) "later") = Some "."%char.
Proof.
  apply (formatTime_shape
           (fun s => if String.eqb s "start" then 0 else 83450)
           (set_startTimeRef "start" initial_page) "later").
  vm_compute. discriminate.
Defined.

Lemma formatTime_read_back_witness :
  centiseconds_shown
    (formatTime (fun s => if String.eqb s "start" then 0 else 83450)
       (set_startTimeRef "start" initial_page) "later") =
  Some ((((if String.eqb "later" "start" then 0 else 83450)
          - (if String.eqb "start" "start" then 0 else 83450)) / 10)
        mod 360000).
Proof.
  apply (formatTime_read_back
           (fun s => if String.eqb s "start" then 0 else 83450)
           (set_startTimeRef "start" initial_page) "later").
  vm_compute. discriminate.
Defined.

(** One minute, 23 seconds and 45 hundredths after the start. *)
Example formatTime_example :
  formatTime (fun s => if String.eqb s "start" then 0 else 83450)
    (set_startTimeRef "start" initial_page) "later" = "01:23.45".
Proof. vm_compute. reflexivity. Qed.

(** ** Expanding events, and what an item shows *)



(** An event whose id is [constructor] stays collapsed. *)
Example toggleEventDetails_constructor :
  toggleEventDetails "constructor" ∅ = ∅.
Proof. reflexivity. Qed.

(** X7: a user item and an assistant item never show an empty text.  A
    non-empty transcript is shown as it is.  Without one, a user item with
    audio shows that the transcript is awaited, and a user item without
    audio shows its text, or ['(item sent)'] when the text is missing or
    empty; an assistant item shows its text, or ['(truncated)'] when the
    text is missing or empty. *)
Theorem item_text_never_blank (f : Formatted) :
  user_content f <> "" /\ assistant_content f <> "" /\
  (forall t, transcript f = Some t -> t <> "" ->
             user_content f = t /\ assistant_content f = t) /\
  (truthy_string (transcript f) = false ->
   (truthy_length (audio f) = true ->
    user_content f = "(awaiting transcript)") /\
   (truthy_length (audio f) = false ->
    (forall t, text f = Some t -> t <> "" -> user_content f = t) /\
    (text f = None \/ text f = Some "" -> user_content f = "(item sent)"))
   /\
   (forall t, text f = Some t -> t <> "" -> assistant_content f = t) /\
   (text f = None \/ text f = Some "" ->
    assistant_content f = "(truncated)")).
Proof.
  assert (Hor : forall a b, b <> "" -> or_else a b <> "").
  { intros a b Hb. unfold or_else, truthy_string.
    destruct a as [s|]; [|exact Hb]. cbn.
    destruct (String.eqb_spec s ""); cbn; [exact Hb | assumption]. }
  assert (Hsome : forall t b, t <> "" -> or_else (Some t) b = t).
  { intros t b Ht. unfold or_else. cbn.
    destruct (String.eqb_spec t ""); [contradiction | reflexivity]. }
  assert (Hnone : forall a b, a = None \/ a = Some "" -> or_else a b = b).
  { intros a b [-> | ->]; reflexivity. }
  split; [|split; [|split]].
  - unfold user_content. apply Hor.
    destruct (truthy_length (audio f)); [discriminate|].
    apply Hor. discriminate.
  - unfold assistant_content. apply Hor, Hor. discriminate.
  - intros t Ht Hne. unfold user_content, assistant_content.
    rewrite Ht. split; now apply Hsome.
  - intros Hfalsy.
    assert (Htr : forall b, or_else (transcript f) b = b).
    { intros b. unfold or_else. now rewrite Hfalsy. }
    unfold user_content, assistant_content. rewrite !Htr.
    split; [|split; [|split]].
    + now intros ->.
    + intros ->. split.
      * intros t Ht Hne. rewrite Ht. now apply Hsome.
      * intros Htext. now apply Hnone.
    + intros t Ht Hne. rewrite Ht. now apply Hsome.
    + intros Htext. now apply Hnone.
Qed.

Lemma item_text_never_blank_witness :
  user_content {| audio := None; text := Some "Hi"; transcript := None;
                  file := None |} = "Hi".
Proof.
  apply (proj1 (proj1 (proj2 (proj2 (proj2 (proj2
           (item_text_never_blank
              {| audio := None; text := Some "Hi"; transcript := None;
                 file := None |}))) eq_refl)) eq_refl) "Hi").
  - reflexivity.
  - discriminate.
Defined.

(** ** The toggle *)

Lemma indexOf_bounds s values : -1 <= indexOf s values.
Proof.
  induction values as [|v values IH]; simpl; [lia|].
  destruct (String.eqb v s); [lia|].
  destruct (Z.ltb_spec (indexOf s values) 0); lia.
Qed.

Lemma indexOf_absent s values : indexOf s values = -1 <-> s ∉ values.
Proof.
  induction values as [|v values IH]; simpl.
  - split; [intros _; apply not_elem_of_nil | reflexivity].
  - pose proof (indexOf_bounds s values) as Hb.
    rewrite not_elem_of_cons.
    destruct (String.eqb_spec v s) as [->|Hne].
    + split; [lia | intros [Hs _]; contradiction].
    + destruct (Z.ltb_spec (indexOf s values) 0) as [Hlt|Hge].
      * split; [intros _|reflexivity].
        split; [congruence | apply IH; lia].
      * split; [lia|]. intros [_ Hnot]. apply IH in Hnot. lia.
Qed.

Lemma indexOf_first s values : indexOf s values = 0 <-> head values = Some s.
Proof.
  destruct values as [|v values]; simpl.
  - split; [lia | discriminate].
  - pose proof (indexOf_bounds s values) as Hb.
    destruct (String.eqb_spec v s) as [->|Hne].
    + split; reflexivity.
    + destruct (Z.ltb_spec (indexOf s values) 0); split;
        try lia; intros [= ->]; contradiction.
Qed.

(** X8: with a string as its default, the toggle starts switched on
    exactly when the string is one of the values and is not the first of
    them; a string that is not among the values starts it switched off,
    like the first value. *)
Theorem Toggle_initialValue_string (s : string) (values : list string) :
  Toggle_initialValue (inl s) values = true
  <-> s ∈ values /\ head values <> Some s.
Proof.
  unfold Toggle_initialValue.
  pose proof (indexOf_bounds s values) as Hb.
  pose proof (indexOf_absent s values) as Habs.
  pose proof (indexOf_first s values) as Hfst.
  rewrite negb_true_iff, Z.eqb_neq. split.
  - intros Hmax. split.
    + destruct (decide (s ∈ values)) as [|Hnot]; [assumption|].
      apply Habs in Hnot. lia.
    + intros Hhead. apply Hfst in Hhead. lia.
  - intros [Hin Hhead].
    assert (indexOf s values <> -1) by (intros E; apply Habs in E; done).
    assert (indexOf s values <> 0) by (intros E; apply Hfst in E; done).
    lia.
Qed.

(** ** Switching the turn detection *)

(** Membership in a trace that is spelled out. *)
Ltac not_in :=
  let H := fresh in
  intros H;
  repeat (apply elem_of_cons in H as [H|H]; [discriminate H|]);
  now apply elem_of_nil in H.

(** Case analysis on every answer and every test a handler meets. *)
Ltac crunch :=
  repeat (cbn;
          match goal with
          | |- context [match ?o with Resolved _ => _ | Rejected _ => _ end] =>
              destruct o eqn:?
          | |- context [if ?b then _ else _] => destruct b eqn:?
          end);
  cbn.

Ltac since w :=
  unfold new_calls; cbn [calls snd fst with_call with_page with_heap page];
  flat; rewrite ?drop_app_length, ?drop_all.

(** X9: [changeTurnEndType] writes [canPushToTalk] only when it runs to
    its end: the flag then is whether the requested mode is ['none'].
    When a call into the recorder or the client fails on the way, the
    flag keeps the value it had, whatever has been sent by then. *)
Theorem changeTurnEndType_flag (env : Collaborators) (value : string)
  (w : World) :
  canPushToTalk (page (snd (changeTurnEndType env value w))) =
  match fst (changeTurnEndType env value w) with
  | Returned _ => String.eqb value "none"
  | Thrown _ => canPushToTalk (page w)
  end.
Proof.
  unfold changeTurnEndType. run. crunch; reflexivity.
Qed.

(** X10: switching to manual mode never starts the recorder and never
    asks whether the client is connected; it pauses the recorder exactly
    when the recorder reports that it is recording; and when the switch
    runs to its end, the session update that turns turn detection off is
    the last call made, so the pause comes before it. *)
Theorem switch_to_manual (env : Collaborators) (w : World) :
  let r := changeTurnEndType env "none" w in
  (WavRecorder_record ∉ new_calls w (snd r)) /\
  (Client_isConnected ∉ new_calls w (snd r)) /\
  (forall st,
     recorder_getStatus env (calls w) = Resolved st ->
     (WavRecorder_pause ∈ new_calls w (snd r) <-> st = "recording")) /\
  (fst r = Returned tt ->
   last (new_calls w (snd r))
   = Some (Client_updateSession (TurnDetection None))).
Proof.
  cbn zeta. unfold changeTurnEndType. run.
  destruct (recorder_getStatus env (calls w)) as [status|err]; cbn.
  - destruct (String.eqb_spec status "recording") as [->|Hst]; cbn.
    + crunch; since w.
      all: split; [not_in|].
      all: split; [not_in|].
      all: split; [|done].
      all: intros st [= <-]; split; try done; intros _; repeat constructor.
    + crunch; since w.
      all: split; [not_in|].
      all: split; [not_in|].
      all: split; [|done].
      all: intros st [= <-]; split; [not_in | contradiction].
  - since w. split; [not_in|]. split; [not_in|]. split; [|done].
    intros st [=].
Qed.

(** X11: switching to VAD mode never reads the recorder's status and
    never pauses it; the session update that turns server VAD on is the
    first call made; and once that update went through, the recorder is
    started exactly when the client reports that it is connected. *)
Theorem switch_to_vad (env : Collaborators) (w : World) :
  let r := changeTurnEndType env "server_vad" w in
  (WavRecorder_getStatus ∉ new_calls w (snd r)) /\
  (WavRecorder_pause ∉ new_calls w (snd r)) /\
  head (new_calls w (snd r))
  = Some (Client_updateSession (TurnDetection (Some "server_vad"))) /\
  (forall connected,
     client_updateSession env (calls w) = Resolved tt ->
     client_isConnected env
       (calls w
        ++ [Client_updateSession (TurnDetection (Some "server_vad"))])
     = Resolved connected ->
     (WavRecorder_record ∈ new_calls w (snd r) <-> connected = true)).
Proof.
  cbn zeta. unfold changeTurnEndType. run.
  destruct (client_updateSession env (calls w)) as [[]|err]; cbn.
  - destruct (client_isConnected env _) as [[|]|err]; cbn.
    + crunch; since w.
      all: split; [not_in|].
      all: split; [not_in|].
      all: split; [done|].
      all: intros c _ [= <-]; split; try done; intros _; repeat constructor.
    + since w. split; [not_in|]. split; [not_in|]. split; [done|].
      intros c _ [= <-]. split; [not_in | discriminate].
    + since w. split; [not_in|]. split; [not_in|]. split; [done|].
      intros c _ [=].
  - since w. split; [not_in|]. split; [not_in|]. split; [done|].
    intros c [=].
Qed.

Lemma switch_to_vad_witness :
  WavRecorder_record
    ∈ new_calls initial_world
        (snd (changeTurnEndType all_resolve "server_vad" initial_world)).
Proof.
  apply (proj2 (proj2 (proj2 (switch_to_vad all_resolve initial_world)))
           true eq_refl eq_refl).
  reflexivity.
Defined.

Lemma switch_to_manual_witness :
  last (new_calls initial_world
          (snd (changeTurnEndType all_resolve "none" initial_world)))
  = Some (Client_updateSession (TurnDetection None)).
Proof.
  apply (proj2 (proj2 (proj2 (switch_to_manual all_resolve initial_world)))).
  reflexivity.
Defined.



(** ** Releasing push to talk *)

(** X13: releasing push to talk always clears [isRecording]; the response
    is requested only after the recorder has been paused, and when the
    pause fails no response is requested. *)
Theorem stopRecording_needs_pause (env : Collaborators) (w : World) :
  let r := stopRecording env w in
  isRecording (page (snd r)) = false /\
  (forall e,
     recorder_pause env (calls w) = Rejected e ->
     fst r = Thrown e /\ new_calls w (snd r) = [WavRecorder_pause]) /\
  (recorder_pause env (calls w) = Resolved tt ->
   new_calls w (snd r) = [WavRecorder_pause; Client_createResponse]).
Proof.
  cbn zeta. unfold stopRecording. run. split; [|split].
  - crunch; reflexivity.
  - intros e ->. cbn. since w. done.
  - intros ->. cbn. crunch; since w; done.
Qed.

Lemma stopRecording_needs_pause_witness :
  new_calls initial_world (snd (stopRecording all_resolve initial_world))
  = [WavRecorder_pause; Client_createResponse].
Proof.
  apply (proj2 (proj2 (stopRecording_needs_pause all_resolve initial_world))).
  reflexivity.
Defined.

(** ** Connecting *)

(** X15: when [connectConversation] runs to its end, the page reports
    connected and its start time is the time of the call; the handler has
    read the client's items, opened the recorder and the player before the
    handshake, sent the greeting after it, and started the recorder at
    once exactly when the turn detection of the client is server VAD. *)
Theorem connect_success (env : Collaborators) (w : World) :
  let r := connectConversation env w in
  fst r = Returned tt ->
  isConnected (page (snd r)) = true /\
  startTimeRef (page (snd r)) = now w /\
  exists kind,
    client_getTurnDetectionType env
      (calls w ++ [Client_getItems; WavRecorder_begin;
                   WavStreamPlayer_connect; Client_connect;
                   Client_sendUserMessageContent "Hello!"])
    = Resolved kind /\
    new_calls w (snd r) =
    [Client_getItems; WavRecorder_begin; WavStreamPlayer_connect;
     Client_connect; Client_sendUserMessageContent "Hello!";
     Client_getTurnDetectionType]
    ++ (if bool_decide (kind = Some "server_vad")
        then [WavRecorder_record] else []).
Proof.
  cbn zeta. unfold connectConversation. run.
  destruct (recorder_begin env _) as [[]|]; cbn; [|discriminate].
  destruct (player_connect env _) as [[]|]; cbn; [|discriminate].
  destruct (client_connect env _) as [[]|]; cbn; [|discriminate].
  destruct (client_sendUserMessageContent env _) as [[]|]; cbn;
    [|discriminate].
  destruct (client_getTurnDetectionType env _) as [kind|] eqn:Hkind; cbn;
    [|discriminate].
  rewrite <- !app_assoc in Hkind. cbn [app] in Hkind.
  destruct (bool_decide (kind = Some "server_vad")) eqn:Hvad; cbn.
  - destruct (recorder_record env _) as [[]|]; cbn; [|discriminate].
    intros _. split; [done|]. split; [done|].
    exists kind. split; [exact Hkind|].
    rewrite Hvad. since w. reflexivity.
  - intros _. split; [done|]. split; [done|].
    exists kind. split; [exact Hkind|].
    rewrite Hvad. since w. reflexivity.
Qed.

Lemma connect_success_witness :
  new_calls initial_world (snd (connectConversation all_resolve initial_world))
  = [Client_getItems; WavRecorder_begin; WavStreamPlayer_connect;
     Client_connect; Client_sendUserMessageContent "Hello!";
     Client_getTurnDetectionType].
Proof.
  destruct (connect_success all_resolve initial_world eq_refl)
    as (_ & _ & kind & Hkind & Hcalls).
  injection Hkind as <-. exact Hcalls.
Defined.

(** X16: the connect button always flips [isConnected], whatever the
    collaborators answer: a click on the disconnected page leaves it
    reporting connected even when the connection fails on the way, so the
    next click disconnects, and a click on the connected page leaves it
    disconnected even when the teardown fails. *)
Theorem connect_button_flips (env : Collaborators) (w : World) :
  isConnected (page (snd (dispatch env ClickConnectButton w)))
  = negb (isConnected (page w)).
Proof.
  unfold dispatch. run.
  destruct (isConnected (page w)); cbn.
  - unfold disconnectConversation. run. crunch; reflexivity.
  - unfold connectConversation. run. crunch; reflexivity.
Qed.

(** ** The tools, further *)

(** X17: when the forecast arrives with a [current] and a [current_units]
    object, [get_weather] returns the body as it came, makes exactly the
    two network calls, and leaves a marker that holds the given lat, lng
    and location with the temperature and the wind speed read from the
    body, each with its units; the coordinates hold the given lat, lng
    and location. *)
Theorem get_weather_success (env : Collaborators) (w : World)
  (lat lng location body : Json) (current units : list (string * Json)) :
  fetch env (calls w) = Resolved tt ->
  response_json env (calls w ++ [Fetch_forecast lat lng]) = Resolved body ->
  get_prop body "current" = Returned (JObject current) ->
  get_prop body "current_units" = Returned (JObject units) ->
  let r := get_weather env lat lng location w in
  fst r = Returned body /\
  new_calls w (snd r) = [Fetch_forecast lat lng; Response_json] /\
  (exists m : gmap string Json,
     marker (page (snd r)) = Some m /\
     m !! "lat" = Some lat /\ m !! "lng" = Some lng /\
     m !! "location" = Some location /\
     m !! "temperature" =
       Some (JObject
               [("value", default JUndefined (assoc "temperature_2m" current));
                ("units", default JUndefined (assoc "temperature_2m" units))])
     /\
     m !! "wind_speed" =
       Some (JObject
               [("value", default JUndefined (assoc "wind_speed_10m" current));
                ("units", default JUndefined (assoc "wind_speed_10m" units))]))
  /\
  (exists c : gmap string Json,
     coords (page (snd r)) = Some c /\
     c !! "lat" = Some lat /\ c !! "lng" = Some lng /\
     c !! "location" = Some location).
Proof.
  intros Hf Hj Hcur Hunits. cbn zeta.
  unfold get_weather, setMarker, setCoords. run.
  rewrite Hf. cbn. rewrite Hj. cbn. rewrite Hcur. cbn. rewrite Hunits. cbn.
  split; [reflexivity|]. split; [since w; reflexivity|]. split.
  - eexists. split; [reflexivity|]. unfold spread.
    repeat split; now apply lookup_union_Some_l.
  - eexists. split; [reflexivity|]. unfold spread.
    repeat split; now apply lookup_union_Some_l.
Qed.

Lemma get_weather_success_witness :
  fst (get_weather network_fails_after_first ten twenty (JString "W")
         initial_world) = Returned forecast_body.
Proof.
  eapply (get_weather_success network_fails_after_first initial_world
            ten twenty (JString "W") forecast_body);
    reflexivity.
Defined.

(** X18: memories compose as a map: of two [set_memory] calls with the
    same key the later value stays, and two calls with different keys
    leave the same store in either order. *)
Theorem set_memory_composes (k1 k2 v1 v2 : string) (w : World) :
  memoryKv_value (page (snd (set_memory k1 v2 (snd (set_memory k1 v1 w)))))
  = memoryKv_value (page (snd (set_memory k1 v2 w))) /\
  (k1 <> k2 ->
   memoryKv_value (page (snd (set_memory k2 v2 (snd (set_memory k1 v1 w)))))
   = memoryKv_value
       (page (snd (set_memory k1 v1 (snd (set_memory k2 v2 w)))))).
Proof.
  cbn. split.
  - f_equal. apply insert_insert_eq.
  - intros Hne. f_equal. now apply insert_insert_ne.
Qed.

Lemma set_memory_composes_witness :
  memoryKv_value
    (page (snd (set_memory "city" "SF"
                  (snd (set_memory "name" "Ada" initial_world)))))
  = memoryKv_value
      (page (snd (set_memory "name" "Ada"
                    (snd (set_memory "city" "SF" initial_world))))).
Proof.
  apply (proj2 (set_memory_composes "name" "city" "Ada" "SF" initial_world)).
  discriminate.
Defined.

(** X19: marker patches compose key by key: applying a patch and then a
    second one is applying their union in which the second wins, so a
    patch applied twice is the patch applied once, and a key neither
    patch names keeps its earlier value. *)
Theorem setMarker_composes (first second : gmap string Json) (w : World) :
  marker (page (snd (setMarker second (snd (setMarker first w)))))
  = marker (page (snd (setMarker (second ∪ first) w))) /\
  marker (page (snd (setMarker first (snd (setMarker first w)))))
  = marker (page (snd (setMarker first w))) /\
  (forall k m,
     first !! k = None -> second !! k = None ->
     marker (page (snd (setMarker second (snd (setMarker first w)))))
       = Some m ->
     m !! k = default ∅ (marker (page w)) !! k).
Proof.
  cbn. unfold spread. cbn. repeat split.
  - f_equal. apply (assoc_L (∪)).
  - f_equal. rewrite (assoc_L (∪)). now rewrite (idemp_L (∪)).
  - intros k m Hf Hs [= <-].
    rewrite !lookup_union_r by assumption. reflexivity.
Qed.

Lemma setMarker_composes_witness :
  ({["location" := JString "X"]}
   ∪ ({["lat" := ten]} ∪ default ∅ (marker (page initial_world))))
    !! "wind_speed"
  = default ∅ (marker (page initial_world)) !! "wind_speed".
Proof.
  apply (proj2 (proj2 (setMarker_composes {["lat" := ten]}
                         {["location" := JString "X"]} initial_world))
           "wind_speed"); reflexivity.
Defined.

(** ** Audio deltas *)

Lemma enqueued_app t1 t2 : enqueued (t1 ++ t2) = enqueued t1 ++ enqueued t2.
Proof. apply omap_app. Qed.

(** X20: a conversation update hands the audio of its delta to the player
    exactly once, under the id of the item as the track, and hands over
    nothing when the delta carries no audio, whether or not the item is
    then decoded.  When the player refuses the audio, the listener stops
    there: nothing is decoded and the items the page shows are not
    refreshed. *)
Theorem audio_delta_routing (env : Collaborators) (w : World) (item : loc)
  (delta : option Delta) (it : ItemType) :
  heap w !! item = Some it ->
  let r := on_conversation_updated env item delta w in
  enqueued (new_calls w (snd r)) =
    match delta ≫= delta_audio with
    | Some samples => [(samples, id it)]
    | None => []
    end /\
  (forall e,
     is_Some (delta ≫= delta_audio) ->
     player_add16BitPCM env (calls w ++ [Client_getItems]) = Rejected e ->
     fst r = Thrown e /\ decodes (new_calls w (snd r)) = 0%nat /\
     items (page (snd r)) = items (page w)).
Proof.
  intros Hit. cbn zeta.
  unfold on_conversation_updated, setItems. run.
  destruct (delta ≫= delta_audio) as [chunk|]; cbn; rewrite Hit; cbn.
  - destruct (player_add16BitPCM env (calls w ++ [Client_getItems]))
      as [[]|err]; cbn.
    + rewrite Hit. cbn. split; [|intros e _ [=]].
      crunch; rewrite ?Hit; crunch; since w; reflexivity.
    + split; [since w; reflexivity|].
      intros e _ [= <-]. since w. done.
  - split; [|intros e [x [=]]].
    crunch; rewrite ?Hit; crunch; since w; reflexivity.
Qed.

Lemma audio_delta_routing_witness :
  enqueued
    (new_calls one_item_world
       (snd (on_conversation_updated all_resolve 0%nat
               (Some {| delta_audio := Some [7; 8] |}) one_item_world)))
  = [([7; 8], "item_1")].
Proof.
  apply (proj1 (audio_delta_routing all_resolve one_item_world 0%nat
                  (Some {| delta_audio := Some [7; 8] |}) completed_item
                  eq_refl)).
Defined.

(** ** The render loop and the canvases *)

Lemma resize_twice c : resize (resize c) = resize c.
Proof.
  unfold resize.
  destruct ((width c =? 0) || (height c =? 0)) eqn:Hzero; cbn.
  - destruct ((offsetWidth c =? 0) || (offsetHeight c =? 0)); reflexivity.
  - now rewrite Hzero.
Qed.

Lemma resize_sized c :
  width c <> 0 -> height c <> 0 -> resize c = c.
Proof.
  intros Hw Hh. unfold resize.
  destruct (Z.eqb_spec (width c) 0); [contradiction|].
  destruct (Z.eqb_spec (height c) 0); [contradiction|]. reflexivity.
Qed.

(** What a run of [render] leaves of the page, by how far it got. *)
Lemma render_page env w :
  page (snd (render env w)) =
    set_serverCanvasRef (resize <$> serverCanvasRef (page w))
      (set_clientCanvasRef (resize <$> clientCanvasRef (page w)) (page w))
  \/ ((exists e, fst (render env w) = Thrown e) /\
      page (snd (render env w)) =
      set_clientCanvasRef (resize <$> clientCanvasRef (page w)) (page w)).
Proof.
  unfold render. run.
  destruct w as [[? ? ? ? ? ? ? ? ? ? [c|] [s|]] ? ? ? ?]; cbn;
    crunch; solve [left; reflexivity | right; split; eauto].
Qed.

(** What [render] does to one canvas. *)
Lemma resize_spec c :
  (width c <> 0 -> height c <> 0 -> resize c = c) /\
  (width c = 0 \/ height c = 0 ->
   width (resize c) = offsetWidth c /\ height (resize c) = offsetHeight c) /\
  offsetWidth (resize c) = offsetWidth c /\
  offsetHeight (resize c) = offsetHeight c /\
  has2d (resize c) = has2d c.
Proof.
  split; [apply resize_sized|]. unfold resize.
  destruct (Z.eqb_spec (width c) 0); destruct (Z.eqb_spec (height c) 0);
    cbn; repeat split; try reflexivity;
    match goal with H : _ \/ _ |- _ => destruct H; contradiction end.
Qed.

(** A page with a client canvas that has not been sized yet. *)
Lemma render_sizes_canvases_example :
  clientCanvasRef
    (page (snd (render all_resolve
                  (with_page
                     (set_clientCanvasRef
                        (Some {| width := 0; height := 0; offsetWidth := 300;
                                 offsetHeight := 150; has2d := true |}))
                     initial_world))))
  = Some {| width := 300; height := 150; offsetWidth := 300;
            offsetHeight := 150; has2d := true |}.
Proof. reflexivity. Qed.

(** X21: a run of [render] that reaches its end leaves a canvas that has a
    width and a height as it is, and gives a canvas whose width or height
    is zero its layout size: the width becomes [offsetWidth] and the
    height [offsetHeight]; the layout size and the context are not
    touched, and a missing canvas stays missing.  A further run of
    [render] on the same layout leaves both canvases as they are. *)
Theorem render_sizes_canvases (env : Collaborators) (w : World) :
  fst (render env w) = Returned tt ->
  let after := page (snd (render env w)) in
  (forall c,
     clientCanvasRef (page w) = Some c ->
     exists c',
       clientCanvasRef after = Some c' /\
       (width c <> 0 -> height c <> 0 -> c' = c) /\
       (width c = 0 \/ height c = 0 ->
        width c' = offsetWidth c /\ height c' = offsetHeight c) /\
       offsetWidth c' = offsetWidth c /\
       offsetHeight c' = offsetHeight c /\
       has2d c' = has2d c) /\
  (forall c,
     serverCanvasRef (page w) = Some c ->
     exists c',
       serverCanvasRef after = Some c' /\
       (width c <> 0 -> height c <> 0 -> c' = c) /\
       (width c = 0 \/ height c = 0 ->
        width c' = offsetWidth c /\ height c' = offsetHeight c) /\
       offsetWidth c' = offsetWidth c /\
       offsetHeight c' = offsetHeight c /\
       has2d c' = has2d c) /\
  (clientCanvasRef (page w) = None -> clientCanvasRef after = None) /\
  (serverCanvasRef (page w) = None -> serverCanvasRef after = None) /\
  clientCanvasRef (page (snd (render env (snd (render env w)))))
  = clientCanvasRef after /\
  serverCanvasRef (page (snd (render env (snd (render env w)))))
  = serverCanvasRef after.
Proof.
  intros Hret after.
  assert (Hafter : after =
            set_serverCanvasRef (resize <$> serverCanvasRef (page w))
              (set_clientCanvasRef (resize <$> clientCanvasRef (page w))
                 (page w))).
  { destruct (render_page env w) as [H|[[e He] _]]; [exact H|].
    rewrite He in Hret. discriminate. }
  assert (Hsecond :
            page (snd (render env (snd (render env w)))) = after).
  { destruct (render_page env (snd (render env w))) as [H|[_ H]];
      rewrite H; fold after; rewrite Hafter; cbn;
      destruct (clientCanvasRef (page w)), (serverCanvasRef (page w)); cbn;
      rewrite ?resize_twice; reflexivity. }
  split; [|split; [|split; [|split; [|split]]]].
  - intros c Hc. exists (resize c). split.
    + rewrite Hafter. cbn. now rewrite Hc.
    + apply resize_spec.
  - intros c Hc. exists (resize c). split.
    + rewrite Hafter. cbn. now rewrite Hc.
    + apply resize_spec.
  - intros Hc. rewrite Hafter. cbn. now rewrite Hc.
  - intros Hc. rewrite Hafter. cbn. now rewrite Hc.
  - now rewrite Hsecond.
  - now rewrite Hsecond.
Qed.

Lemma render_sizes_canvases_witness :
  exists c',
    clientCanvasRef
      (page (snd (render all_resolve
                    (with_page
                       (set_clientCanvasRef
                          (Some {| width := 0; height := 0;
                                   offsetWidth := 300; offsetHeight := 150;
                                   has2d := true |}))
                       initial_world)))) = Some c' /\
    (0 <> 0 -> 0 <> 0 ->
     c' = {| width := 0; height := 0; offsetWidth := 300;
             offsetHeight := 150; has2d := true |}) /\
    (0 = 0 \/ 0 = 0 -> width c' = 300 /\ height c' = 150) /\
    offsetWidth c' = 300 /\ offsetHeight c' = 150 /\ has2d c' = true.
Proof.
  apply (proj1 (render_sizes_canvases all_resolve
                  (with_page
                     (set_clientCanvasRef
                        (Some {| width := 0; height := 0; offsetWidth := 300;
                                 offsetHeight := 150; has2d := true |}))
                     initial_world)
                  eq_refl)
           {| width := 0; height := 0; offsetWidth := 300;
              offsetHeight := 150; has2d := true |} eq_refl).
Defined.
